(** * Search session tracking: the session service over its state container

    A shallow embedding of [SessionService] (the class that tracks the
    current search session) and of the observable operators it pipes the
    container's state stream through.  The state container the service
    imports from [./search_session_state] is an interface here
    ([SessionTransitions]); one instance of it follows the written
    description of the container.

    State is passed explicitly: a service method is a function on
    [SessionService] values, and every call to a collaborator (a pending
    search's [abort], the sessions client, the info provider, the console,
    the timer queue, the fatal-error channel) is appended to the service's
    [effects] trace, oldest first.  An [async] method is cut at its [await]s:
    one function per synchronous segment, the values that are live across an
    [await] carried in a record, and the settled promise supplied by the
    caller of the next segment.  Anything may happen to the service between
    two segments, so a later segment is a function of an arbitrary service
    value. *)

From stdpp Require Import base strings gmap list.

(** ** JavaScript values *)

Module Js.

(** [if (v)] on a value of type [string | undefined]: the empty string and
    [undefined] are falsy. *)
Definition truthy (v : option string) : bool :=
  match v with
  | Some s => bool_decide (s ≠ EmptyString)
  | None => false
  end.

(** [`${v}`] on a value of type [string | undefined]. *)
Definition template (v : option string) : string :=
  match v with
  | Some s => s
  | None => "undefined"
  end.

(** How a promise settles. *)
Inductive Settled (A : Type) : Type :=
| Fulfilled (a : A)
| Rejected (reason : string).
Global Arguments Fulfilled {A} a.
Global Arguments Rejected {A} reason.

(** How a synchronous segment of a function ends: it returns, or it throws
    (which rejects the promise of an [async] function). *)
Inductive Completion (A : Type) : Type :=
| Return (a : A)
| Throw (message : string).
Global Arguments Return {A} a.
Global Arguments Throw {A} message.

(** A segment of an [async] function either completes the call or stops at an
    [await] with the live locals [k]. *)
Inductive Step (K A : Type) : Type :=
| Done (c : Completion A)
| Await (k : K).
Global Arguments Done {K A} c.
Global Arguments Await {K A} k.

End Js.

(** ** Observables, as the list of values one subscriber receives *)

Module Rx.

Definition startWith {A : Type} (a : A) (source : list A) : list A :=
  a :: source.

Definition map {A B : Type} (f : A → B) (source : list A) : list B :=
  List.map f source.

(** [distinctUntilChanged()] with the value emitted last, if any. *)
Fixpoint distinctUntilChanged_from {A : Type} `{EqDecision A}
    (last : option A) (source : list A) : list A :=
  match source with
  | [] => []
  | a :: rest =>
      if decide (last = Some a)
      then distinctUntilChanged_from last rest
      else a :: distinctUntilChanged_from (Some a) rest
  end.

Definition distinctUntilChanged {A : Type} `{EqDecision A}
    (source : list A) : list A :=
  distinctUntilChanged_from None source.

(** The value [distinctUntilChanged] compares the next one with, once
    [source] has gone through it: the last of [source], emitted or not. *)
Definition last_seen {A : Type} (before : option A) (source : list A) : option A :=
  match last source with
  | Some a => Some a
  | None => before
  end.

End Rx.

(** ** The state container *)

Module SearchSessionState.

(** A pending search is a JavaScript object compared by identity: its
    reference.  Its one capability, [abort], is an effect of the service. *)
Definition TrackSearchDescriptor : Type := positive.

Record SessionStateInternal : Type := mkState {
  sessionId : option string;
  isStored : bool;
  isRestore : bool;
  pendingSearches : gset positive
}.

#[global] Instance SessionStateInternal_eq_dec : EqDecision SessionStateInternal.
Proof. solve_decision. Defined.

(** The transitions the service calls through [this.state.transitions].
    [start] draws a fresh identifier; the identifier drawn is an argument. *)
Record SessionTransitions : Type := {
  start : string → SessionStateInternal → SessionStateInternal;
  restore : string → SessionStateInternal → SessionStateInternal;
  clear : SessionStateInternal → SessionStateInternal;
  store : SessionStateInternal → SessionStateInternal;
  trackSearch : TrackSearchDescriptor → SessionStateInternal → SessionStateInternal;
  unTrackSearch : TrackSearchDescriptor → SessionStateInternal → SessionStateInternal;
  cancel : SessionStateInternal → SessionStateInternal
}.

(** Modelled from the spec: the container's initial and reset value (the
    module [search_session_state] is not among the sources): no session, not
    stored, not a restore, no pending search. *)
Definition createSessionDefaultState : SessionStateInternal :=
  mkState None false false ∅.

(** Modelled from the spec: the container's [start] transition, missing from
    the sources; it "generates a fresh unique sessionId, clears
    isStored/isRestore, empties pendingSearches". *)
Definition spec_start (uuid : string) (_ : SessionStateInternal) : SessionStateInternal :=
  mkState (Some uuid) false false ∅.

(** Modelled from the spec: the container's [restore] transition, missing
    from the sources; it is the "same as start but sets the provided
    sessionId and marks isRestore = true". *)
Definition spec_restore (id : string) (_ : SessionStateInternal) : SessionStateInternal :=
  mkState (Some id) false true ∅.

(** Modelled from the spec: the container's [clear] transition, missing from
    the sources; it resets the state to empty. *)
Definition spec_clear (_ : SessionStateInternal) : SessionStateInternal :=
  createSessionDefaultState.

(** Modelled from the spec: the container's [store] transition, missing from
    the sources; it "sets isStored = true for the current session; a no-op if
    no session is active". *)
Definition spec_store (s : SessionStateInternal) : SessionStateInternal :=
  match sessionId s with
  | Some _ => mkState (sessionId s) true (isRestore s) (pendingSearches s)
  | None => s
  end.

(** Modelled from the spec: the container's [trackSearch] transition, missing
    from the sources; it "adds descriptor to pendingSearches", a set; called
    with no active session it is treated as a no-op. *)
Definition spec_trackSearch (d : TrackSearchDescriptor) (s : SessionStateInternal)
    : SessionStateInternal :=
  match sessionId s with
  | Some _ => mkState (sessionId s) (isStored s) (isRestore s) ({[d]} ∪ pendingSearches s)
  | None => s
  end.

(** Modelled from the spec: the container's [unTrackSearch] transition,
    missing from the sources; it "removes descriptor from pendingSearches". *)
Definition spec_unTrackSearch (d : TrackSearchDescriptor) (s : SessionStateInternal)
    : SessionStateInternal :=
  mkState (sessionId s) (isStored s) (isRestore s) (pendingSearches s ∖ {[d]}).

(** Modelled from the spec: the container's [cancel] transition, missing from
    the sources; it "clears pendingSearches and resets
    sessionId/isStored/isRestore to empty - full reset, equivalent to
    clearing state". *)
Definition spec_cancel (_ : SessionStateInternal) : SessionStateInternal :=
  createSessionDefaultState.

(** Modelled from the spec: the transitions of the container that
    [createSessionStateContainer] builds (missing from the sources), one per
    operation of its description. *)
Definition sessionPureTransitions : SessionTransitions := {|
  start := spec_start;
  restore := spec_restore;
  clear := spec_clear;
  store := spec_store;
  trackSearch := spec_trackSearch;
  unTrackSearch := spec_unTrackSearch;
  cancel := spec_cancel
|}.

End SearchSessionState.

(** ** The session service *)

Module SessionService.
Import Js SearchSessionState.

(** A registered [SearchSessionInfoProvider] is an object of the UI layer:
    its reference.  What its two promises settle to is known when they
    settle, not when they are requested. *)
Definition SearchSessionInfoProvider : Type := positive.

(** A [Record<string, unknown>] state blob, values in their JSON text. *)
Abbreviation UrlGeneratorState := (gmap string string).

(** What [getUrlGeneratorData()] resolves to. *)
Record UrlGeneratorData : Type := {
  urlGeneratorId : string;
  initialState : UrlGeneratorState;
  restoreState : UrlGeneratorState
}.

(** The argument of [sessionsClient.create]. *)
Record SessionDescriptor : Type := {
  sd_name : string;
  sd_appId : option string;
  sd_restoreState : UrlGeneratorState;
  sd_initialState : UrlGeneratorState;
  sd_urlGeneratorId : string;
  sd_sessionId : string
}.

(** The callback handed to [setTimeout] by the navigation watcher. *)
Inductive Callback : Type :=
| AddFatalError (message : string).

(** Calls that leave the service. *)
Inductive Effect : Type :=
| Abort (s : TrackSearchDescriptor)
| SessionsClientDelete (sessionId : option string)
| SessionsClientCreate (d : SessionDescriptor)
| GetName (p : SearchSessionInfoProvider)
| GetUrlGeneratorData (p : SearchSessionInfoProvider)
| ConsoleWarn (message : string)
| SetTimeout (cb : Callback) (ms : nat)
| FatalErrorsAdd (message : string)
| Unsubscribe
| RefreshNext.

#[global] Instance UrlGeneratorData_eq_dec : EqDecision UrlGeneratorData.
Proof. solve_decision. Defined.
#[global] Instance SessionDescriptor_eq_dec : EqDecision SessionDescriptor.
Proof. solve_decision. Defined.
#[global] Instance Callback_eq_dec : EqDecision Callback.
Proof. solve_decision. Defined.
#[global] Instance Effect_eq_dec : EqDecision Effect.
Proof. solve_decision. Defined.

(** The service object together with what it has done so far:
    - [dev] is [initializerContext.env.mode.dev];
    - [state] is what [this.state.get()] returns;
    - [published] lists the values pushed on [this.state.state$];
    - [appChangeSubscription] says whether the field is set;
    - [effects] lists the calls made to collaborators. *)
Record SessionService : Type := mkService {
  dev : bool;
  state : SessionStateInternal;
  published : list SessionStateInternal;
  searchSessionInfoProvider : option SearchSessionInfoProvider;
  appChangeSubscription : bool;
  curApp : option string;
  effects : list Effect
}.

Definition with_provider (p : option SearchSessionInfoProvider) (sv : SessionService)
    : SessionService :=
  mkService (dev sv) (state sv) (published sv) p
            (appChangeSubscription sv) (curApp sv) (effects sv).

Definition with_subscription (b : bool) (sv : SessionService) : SessionService :=
  mkService (dev sv) (state sv) (published sv) (searchSessionInfoProvider sv)
            b (curApp sv) (effects sv).

Definition with_curApp (a : option string) (sv : SessionService) : SessionService :=
  mkService (dev sv) (state sv) (published sv) (searchSessionInfoProvider sv)
            (appChangeSubscription sv) a (effects sv).

(** One call to a collaborator. *)
Definition perform (e : Effect) (sv : SessionService) : SessionService :=
  mkService (dev sv) (state sv) (published sv) (searchSessionInfoProvider sv)
            (appChangeSubscription sv) (curApp sv) (effects sv ++ [e]).

(** Modelled from the spec: how the container, missing from the sources,
    runs a transition called through [this.state.transitions]: it replaces
    its value by the transition's result and "publishes the resulting state
    to all subscribers, in transition order". *)
Definition dispatch (f : SessionStateInternal → SessionStateInternal)
    (sv : SessionService) : SessionService :=
  mkService (dev sv) (f (state sv)) (published sv ++ [f (state sv)])
            (searchSessionInfoProvider sv) (appChangeSubscription sv)
            (curApp sv) (effects sv).

(** Modelled from the spec: the container's stream [this.state.state$],
    missing from the sources; it gives a subscriber the current value when it
    subscribes ("replay-latest"), then every value published afterwards. *)
Definition state_dollar (current : SessionStateInternal)
    (later : list SessionStateInternal) : list SessionStateInternal :=
  current :: later.

(** What the container holds once [later] has been published after
    [current]. *)
Definition current_after (current : SessionStateInternal)
    (later : list SessionStateInternal) : SessionStateInternal :=
  default current (last later).

(** The values published between two points of one run. *)
Definition published_since (before after : SessionService) : list SessionStateInternal :=
  drop (length (published before)) (published after).

(** The collaborator calls made between two points of one run. *)
Definition effects_since (before after : SessionService) : list Effect :=
  drop (length (effects before)) (effects after).

(** How many times [abort] of the pending search [s] occurs in a trace. *)
Definition abort_count (s : TrackSearchDescriptor) (trace : list Effect) : nat :=
  count_occ Effect_eq_dec trace (Abort s).

(** The arguments of the calls of [sessionsClient.delete] in a trace. *)
Definition delete_calls (trace : list Effect) : list (option string) :=
  omap (λ e, match e with SessionsClientDelete id => Some id | _ => None end) trace.

(** The arguments of the calls of [sessionsClient.create] in a trace. *)
Definition create_calls (trace : list Effect) : list SessionDescriptor :=
  omap (λ e, match e with SessionsClientCreate d => Some d | _ => None end) trace.

Section Service.

Variable T : SessionTransitions.

(** The service as the constructor leaves it, before [getStartServices()]
    resolves. *)
Definition constructor (devMode : bool) : SessionService :=
  mkService devMode createSessionDefaultState [] None false None [].

Definition setSearchSessionInfoProvider (p : option SearchSessionInfoProvider)
    (sv : SessionService) : SessionService :=
  with_provider p sv.

(** The closure [trackSearch] returns. *)
Definition untrack (searchDescriptor : TrackSearchDescriptor)
    (sv : SessionService) : SessionService :=
  dispatch (unTrackSearch T searchDescriptor) sv.

Definition trackSearch (searchDescriptor : TrackSearchDescriptor)
    (sv : SessionService) : (SessionService → SessionService) * SessionService :=
  (untrack searchDescriptor, dispatch (SearchSessionState.trackSearch T searchDescriptor) sv).

Definition getSessionId (sv : SessionService) : option string :=
  sessionId (state sv).

(** [getSession$()]: called when the container holds [atCall], subscribed
    when it holds [atSubscribe], with [later] published afterwards. *)
Definition getSession_dollar (atCall atSubscribe : SessionStateInternal)
    (later : list SessionStateInternal) : list (option string) :=
  Rx.distinctUntilChanged
    (Rx.map sessionId
       (Rx.startWith atCall (state_dollar atSubscribe later))).

Definition isStored (sv : SessionService) : bool :=
  SearchSessionState.isStored (state sv).

Definition isRestore (sv : SessionService) : bool :=
  SearchSessionState.isRestore (state sv).

Definition start (uuid : string) (sv : SessionService) : option string * SessionService :=
  let sv := dispatch (SearchSessionState.start T uuid) sv in
  (getSessionId sv, sv).

Definition restore (sessionId : string) (sv : SessionService) : SessionService :=
  dispatch (SearchSessionState.restore T sessionId) sv.

Definition clear (sv : SessionService) : SessionService :=
  let sv := dispatch (SearchSessionState.clear T) sv in
  setSearchSessionInfoProvider None sv.

Definition destroy (sv : SessionService) : SessionService :=
  let sv := if appChangeSubscription sv then perform Unsubscribe sv else sv in
  clear sv.

Definition refresh (sv : SessionService) : SessionService :=
  perform RefreshNext sv.

(** [getStartServices().then(...)]: the subscription to [currentAppId$]. *)
Definition onStartServices (sv : SessionService) : SessionService :=
  with_subscription true sv.

(** The subscriber of [currentAppId$], run for each [appName] it emits. *)
Definition onAppChange (appName : option string) (sv : SessionService) : SessionService :=
  let sv :=
    if truthy (sessionId (state sv)) then
      let message :=
        ("Application '" +:+ template (curApp sv)
           +:+ "' had an open session while navigating")%string in
      if dev sv then
        perform (SetTimeout (AddFatalError message) 100) sv
      else
        let sv := perform (ConsoleWarn message) sv in
        clear sv
    else sv in
  with_curApp appName sv.

(** A timer of the navigation watcher fires. *)
Definition onTimeout (cb : Callback) (sv : SessionService) : SessionService :=
  match cb with
  | AddFatalError message => perform (FatalErrorsAdd message) sv
  end.

(** [pendingSearches.forEach((s) => s.abort())]. *)
Definition abortAll (pending : gset positive) (sv : SessionService) : SessionService :=
  foldl (λ sv s, perform (Abort s) sv) sv (elements pending).

(** [cancel()] up to its [await] (or to its end when nothing is awaited). *)
Definition cancel (sv : SessionService) : Step unit unit * SessionService :=
  let isStoredSession := SearchSessionState.isStored (state sv) in
  let sv := abortAll (pendingSearches (state sv)) sv in
  let sv := dispatch (SearchSessionState.cancel T) sv in
  if isStoredSession then
    (Await tt, perform (SessionsClientDelete (sessionId (state sv))) sv)
  else
    (Done (Return tt), sv).

(** [cancel()] after [sessionsClient.delete] has settled. *)
Definition cancel_deleted (_ : unit) (settled : Settled unit) (sv : SessionService)
    : Completion unit * SessionService :=
  match settled with
  | Fulfilled _ => (Return tt, sv)
  | Rejected reason => (Throw reason, sv)
  end.

(** The locals of [save()] that are live across [await Promise.all(...)]. *)
Record SaveAwaitingProvider : Type := {
  ap_sessionId : string
}.

(** The locals of [save()] that are live across
    [await this.sessionsClient.create(...)]. *)
Record SaveAwaitingCreate : Type := {
  ac_sessionId : string
}.

(** [save()] up to [await Promise.all([...])].  [!sessionId] holds for
    [undefined] and for the empty string; the array literal calls [getName()]
    and then [getUrlGeneratorData()] before anything is awaited. *)
Definition save (sv : SessionService) : Step SaveAwaitingProvider unit * SessionService :=
  match getSessionId sv with
  | Some sessionId =>
      if negb (truthy (Some sessionId)) then (Done (Throw "No current session"), sv)
      else if negb (truthy (curApp sv)) then (Done (Throw "No current app id"), sv)
      else
        match searchSessionInfoProvider sv with
        | None => (Done (Throw "No info provider for current session"), sv)
        | Some currentSessionInfoProvider =>
            let sv := perform (GetName currentSessionInfoProvider) sv in
            let sv := perform (GetUrlGeneratorData currentSessionInfoProvider) sv in
            (Await {| ap_sessionId := sessionId |}, sv)
        end
  | None => (Done (Throw "No current session"), sv)
  end.

(** [save()] from the settlement of [Promise.all] to
    [await this.sessionsClient.create(...)]. *)
Definition save_provided (k : SaveAwaitingProvider)
    (settled : Settled (string * UrlGeneratorData)) (sv : SessionService)
    : Step SaveAwaitingCreate unit * SessionService :=
  match settled with
  | Rejected reason => (Done (Throw reason), sv)
  | Fulfilled (name, data) =>
      let sv :=
        perform (SessionsClientCreate {|
          sd_name := name;
          sd_appId := curApp sv;
          sd_restoreState := restoreState data;
          sd_initialState := initialState data;
          sd_urlGeneratorId := urlGeneratorId data;
          sd_sessionId := ap_sessionId k
        |}) sv in
      (Await {| ac_sessionId := ap_sessionId k |}, sv)
  end.

(** [save()] from the settlement of [sessionsClient.create] to its end. *)
Definition save_created (k : SaveAwaitingCreate) (settled : Settled unit)
    (sv : SessionService) : Completion unit * SessionService :=
  match settled with
  | Rejected reason => (Throw reason, sv)
  | Fulfilled _ =>
      if decide (getSessionId sv = Some (ac_sessionId k))
      then (Return tt, dispatch (store T) sv)
      else (Return tt, sv)
  end.

(** A call of [save()] that nothing interleaves with: the provider's
    promises settle to [provided], the create call to [created]. *)
Definition save_alone (provided : Settled (string * UrlGeneratorData))
    (created : Settled unit) (sv : SessionService) : Completion unit * SessionService :=
  match save sv with
  | (Done c, sv) => (c, sv)
  | (Await k, sv) =>
      match save_provided k provided sv with
      | (Done c, sv) => (c, sv)
      | (Await k, sv) => save_created k created sv
      end
  end.

End Service.

End SessionService.

(** ** One run of the service, used to exercise the statements below *)

Module Scenario.
Import Js SearchSessionState SessionService.

(** The service of a production build ([dev = false]) or of a development
    build, once the start services have resolved and the host has announced
    the application "discover". *)
Definition booted (devMode : bool) : SessionService :=
  onAppChange sessionPureTransitions (Some "discover")
    (onStartServices (constructor devMode)).

(** [start()] drew the identifier "S1". *)
Definition started (devMode : bool) : SessionService :=
  (start sessionPureTransitions "S1" (booted devMode)).2.

(** The application registered its info provider, the object [7]. *)
Definition provided (devMode : bool) : SessionService :=
  setSearchSessionInfoProvider (Some 7%positive) (started devMode).

(** Two searches, the objects [1] and [2], are in flight. *)
Definition searching (devMode : bool) : SessionService :=
  (trackSearch sessionPureTransitions 2%positive
     (trackSearch sessionPureTransitions 1%positive (provided devMode)).2).2.

(** What the provider's promises settle to: the name "N" and the state
    [{a: 1}]. *)
Definition name_and_state : string * UrlGeneratorData :=
  ("N", {| urlGeneratorId := "DISCOVER_APP_URL_GENERATOR";
           initialState := {[ "a" := "1" ]};
           restoreState := {[ "a" := "1" ]} |}).

(** [save()] ran to its end with nothing in between. *)
Definition saved (devMode : bool) : SessionService :=
  (save_alone sessionPureTransitions (Fulfilled name_and_state) (Fulfilled tt)
     (searching devMode)).2.

End Scenario.

(** ** The service driven by a sequence of calls *)

Module Calls.
Import Js SearchSessionState SessionService.

(** [cancel()] from its call to the settlement of its promise, when nothing
    else runs in between: [deleted] is how [sessionsClient.delete] settles,
    if it is called. *)
Definition cancel_alone (T : SessionTransitions) (deleted : Settled unit)
    (sv : SessionService) : Completion unit * SessionService :=
  match cancel T sv with
  | (Done c, sv) => (c, sv)
  | (Await k, sv) => cancel_deleted k deleted sv
  end.

(** Whatever can run one synchronous piece of the service: a call of a public
    method (for an [async] method, its first segment), the resumption of a
    suspended [save()] or [cancel()], the closure returned by [trackSearch],
    and the three callbacks the constructor registers. *)
Inductive Call : Type :=
| CallSetSearchSessionInfoProvider (p : option SearchSessionInfoProvider)
| CallTrackSearch (s : TrackSearchDescriptor)
| CallUntrack (s : TrackSearchDescriptor)
| CallDestroy
| CallStart (uuid : string)
| CallRestore (sessionId : string)
| CallClear
| CallRefresh
| CallCancel
| ResumeCancel (settled : Settled unit)
| CallSave
| ResumeSaveProvided (k : SaveAwaitingProvider)
    (settled : Settled (string * UrlGeneratorData))
| ResumeSaveCreated (k : SaveAwaitingCreate) (settled : Settled unit)
| StartServicesResolved
| AppChanged (appName : option string)
| TimerFired (cb : Callback).

(** The service after one piece has run; what the piece returns is dropped. *)
Definition step (T : SessionTransitions) (c : Call) (sv : SessionService)
    : SessionService :=
  match c with
  | CallSetSearchSessionInfoProvider p => setSearchSessionInfoProvider p sv
  | CallTrackSearch s => (trackSearch T s sv).2
  | CallUntrack s => untrack T s sv
  | CallDestroy => destroy T sv
  | CallStart uuid => (start T uuid sv).2
  | CallRestore sessionId => restore T sessionId sv
  | CallClear => clear T sv
  | CallRefresh => refresh sv
  | CallCancel => (cancel T sv).2
  | ResumeCancel settled => (cancel_deleted tt settled sv).2
  | CallSave => (save sv).2
  | ResumeSaveProvided k settled => (save_provided k settled sv).2
  | ResumeSaveCreated k settled => (save_created T k settled sv).2
  | StartServicesResolved => onStartServices sv
  | AppChanged appName => onAppChange T appName sv
  | TimerFired cb => onTimeout cb sv
  end.

Definition run (T : SessionTransitions) (cs : list Call) (sv : SessionService)
    : SessionService :=
  foldl (λ sv c, step T c sv) sv cs.

Definition is_cancel (c : Call) : bool :=
  match c with CallCancel => true | _ => false end.

Definition is_save (c : Call) : bool :=
  match c with CallSave => true | _ => false end.

Definition is_save_provided (c : Call) : bool :=
  match c with ResumeSaveProvided _ _ => true | _ => false end.

(** The pieces that assign [this.searchSessionInfoProvider], directly or
    through [clear()]. *)
Definition assigns_provider (c : Call) : bool :=
  match c with
  | CallSetSearchSessionInfoProvider _ | CallClear | CallDestroy | AppChanged _ => true
  | _ => false
  end.

Definition is_abort (e : Effect) : bool :=
  match e with Abort _ => true | _ => false end.

Definition is_delete (e : Effect) : bool :=
  match e with SessionsClientDelete _ => true | _ => false end.

Definition is_create (e : Effect) : bool :=
  match e with SessionsClientCreate _ => true | _ => false end.

Definition is_provider_request (e : Effect) : bool :=
  match e with GetName _ | GetUrlGeneratorData _ => true | _ => false end.

Definition is_fatal_error_timer (e : Effect) : bool :=
  match e with SetTimeout (AddFatalError _) 100 => true | _ => false end.

Definition is_app_changed (c : Call) : bool :=
  match c with AppChanged _ => true | _ => false end.

(** Which piece of the service makes which call to a collaborator. *)
Definition may_cause (c : Call) (e : Effect) : bool :=
  match e, c with
  | Abort _, CallCancel => true
  | SessionsClientDelete _, CallCancel => true
  | SessionsClientCreate _, ResumeSaveProvided _ _ => true
  | GetName _, CallSave => true
  | GetUrlGeneratorData _, CallSave => true
  | ConsoleWarn _, AppChanged _ => true
  | SetTimeout _ _, AppChanged _ => true
  | FatalErrorsAdd _, TimerFired _ => true
  | Unsubscribe, CallDestroy => true
  | RefreshNext, CallRefresh => true
  | _, _ => false
  end.

End Calls.

(** ** The dashboard's expand-panel action *)

Module ExpandPanel.

(** How a method of the action ends: it returns, or it throws
    [IncompatibleActionError] (the only error the action raises). *)
Inductive Outcome (A : Type) : Type :=
| Returned (a : A)
| IncompatibleActionError.
Global Arguments Returned {A} a.
Global Arguments IncompatibleActionError {A}.

(** What the action reads of a parent embeddable: its [type], and the
    [expandedPanelId] of the input [getInput()] returns. *)
Record Parent : Type := {
  parent_type : string;
  expandedPanelId : option string
}.

(** What the action reads of the embeddable it is run on. *)
Record IEmbeddable : Type := {
  id : string;
  type : string;
  parent : option Parent
}.

Definition ACTION_EXPAND_PANEL : string := "togglePanel".

Section Action.

(** The constant of [../embeddable] and the two titles of
    [dashboardExpandPanelAction], none of them among the sources. *)
Variable DASHBOARD_CONTAINER_TYPE : string.
Variables getMinimizeTitle getMaximizeTitle : string.

(** [parent.updateInput({ expandedPanelId })], a method of the embeddable
    base class, not among the sources. *)
Variable updateInput : option string → Parent → Parent.

Definition isDashboard (p : Parent) : bool :=
  bool_decide (parent_type p = DASHBOARD_CONTAINER_TYPE).

Definition isExpanded (embeddable : IEmbeddable) : Outcome bool :=
  match parent embeddable with
  | None => IncompatibleActionError
  | Some p =>
      if negb (isDashboard p) then IncompatibleActionError
      else Returned (bool_decide (Some (id embeddable) = expandedPanelId p))
  end.

Definition getDisplayName (embeddable : IEmbeddable) : Outcome string :=
  match parent embeddable with
  | None => IncompatibleActionError
  | Some p =>
      if negb (isDashboard p) then IncompatibleActionError
      else
        match isExpanded embeddable with
        | Returned true => Returned getMinimizeTitle
        | Returned false => Returned getMaximizeTitle
        | IncompatibleActionError => IncompatibleActionError
        end
  end.

Definition getIconType (embeddable : IEmbeddable) : Outcome string :=
  match parent embeddable with
  | None => IncompatibleActionError
  | Some p =>
      if negb (isDashboard p) then IncompatibleActionError
      else
        match isExpanded embeddable with
        | Returned true => Returned "expand"
        | Returned false => Returned "expand"
        | IncompatibleActionError => IncompatibleActionError
        end
  end.

Definition isCompatible (embeddable : IEmbeddable) : bool :=
  match parent embeddable with
  | None => false
  | Some p => isDashboard p
  end.

(** [execute] returns nothing; what it leaves is the parent after
    [updateInput]. *)
Definition execute (embeddable : IEmbeddable) : Outcome Parent :=
  match parent embeddable with
  | None => IncompatibleActionError
  | Some p =>
      if negb (isDashboard p) then IncompatibleActionError
      else
        match isExpanded embeddable with
        | Returned expanded =>
            let newValue := if expanded then None else Some (id embeddable) in
            Returned (updateInput newValue p)
        | IncompatibleActionError => IncompatibleActionError
        end
  end.

(** The embeddable seen again after its parent has become [p]. *)
Definition reparent (p : Parent) (embeddable : IEmbeddable) : IEmbeddable :=
  {| id := id embeddable; type := type embeddable; parent := Some p |}.

(** [execute] run again on what [execute] has left. *)
Definition execute_twice (embeddable : IEmbeddable) : Outcome Parent :=
  match execute embeddable with
  | Returned p => execute (reparent p embeddable)
  | IncompatibleActionError => IncompatibleActionError
  end.

End Action.

(** An [updateInput] that merges the change into the input it keeps. *)
Definition mergeInput (newValue : option string) (p : Parent) : Parent :=
  {| parent_type := parent_type p; expandedPanelId := newValue |}.

End ExpandPanel.

(** ** A container whose [cancel] keeps the session *)

Module KeptSession.
Import SearchSessionState.



End KeptSession.

(** * Properties *)

Import Js SearchSessionState SessionService.

(** ** The scenario, run *)

Example scenario_searching_state :
  state (Scenario.searching false) =
  mkState (Some "S1") false false {[ 1%positive; 2%positive ]}
  ∧ curApp (Scenario.searching false) = Some "discover"
  ∧ searchSessionInfoProvider (Scenario.searching false) = Some 7%positive
  ∧ effects (Scenario.searching false) = [].
Proof. repeat split; by apply (bool_decide_unpack _). Qed.

Example scenario_saved_trace :
  effects (Scenario.saved false) =
  [GetName 7%positive; GetUrlGeneratorData 7%positive;
   SessionsClientCreate {|
     sd_name := "N";
     sd_appId := Some "discover";
     sd_restoreState := {[ "a" := "1" ]};
     sd_initialState := {[ "a" := "1" ]};
     sd_urlGeneratorId := "DISCOVER_APP_URL_GENERATOR";
     sd_sessionId := "S1" |}]
  ∧ map sessionId (published (Scenario.saved false)) =
    [Some "S1"; Some "S1"; Some "S1"; Some "S1"]
  ∧ map SearchSessionState.isStored (published (Scenario.saved false)) =
    [false; false; false; true].
Proof. repeat split; reflexivity. Qed.

Example scenario_save_without_provider :
  (save (Scenario.started false)).1 =
  Done (Throw "No info provider for current session").
Proof. reflexivity. Qed.

(** ** Traces *)

Lemma effects_since_app (before after : SessionService) (new : list Effect) :
  effects after = effects before ++ new → effects_since before after = new.
Proof.
  intros E. unfold effects_since. rewrite E. apply drop_app_length.
Qed.

Lemma published_since_app (before after : SessionService)
    (new : list SessionStateInternal) :
  published after = published before ++ new → published_since before after = new.
Proof.
  intros E. unfold published_since. rewrite E. apply drop_app_length.
Qed.

Lemma delete_calls_app (l1 l2 : list Effect) :
  delete_calls (l1 ++ l2) = delete_calls l1 ++ delete_calls l2.
Proof. apply omap_app. Qed.

Lemma delete_calls_aborts (l : list TrackSearchDescriptor) :
  delete_calls (map Abort l) = [].
Proof. induction l as [|s l IH]; [reflexivity | exact IH]. Qed.

Lemma abort_count_app (s : TrackSearchDescriptor) (l1 l2 : list Effect) :
  abort_count s (l1 ++ l2) = abort_count s l1 + abort_count s l2.
Proof. apply count_occ_app. Qed.

(** A list without repetition holds each of its members once. *)
Lemma abort_count_NoDup (s : TrackSearchDescriptor) (l : list TrackSearchDescriptor) :
  NoDup l → abort_count s (map Abort l) = if decide (s ∈ l) then 1 else 0.
Proof.
  unfold abort_count. induction 1 as [|x l Hx Hl IH]; cbn [map].
  - destruct (decide (s ∈ [])) as [Hin|_]; [by apply elem_of_nil in Hin | done].
  - destruct (decide (x = s)) as [->|NE].
    + rewrite count_occ_cons_eq by reflexivity. rewrite IH.
      destruct (decide (s ∈ l)); [done|].
      destruct (decide (s ∈ s :: l)) as [_|Hn]; [done|].
      exfalso. apply Hn. apply list_elem_of_here.
    + rewrite count_occ_cons_neq by congruence. rewrite IH.
      destruct (decide (s ∈ l)) as [Hin|Hout];
        destruct (decide (s ∈ x :: l)) as [Hin'|Hout']; try done.
      * exfalso. apply Hout'. by apply list_elem_of_further.
      * apply elem_of_cons in Hin' as [->|?]; [congruence | done].
Qed.

(** ** What [abortAll] does: one [abort] per pending search, nothing else *)

Lemma foldl_perform_aborts (l : list TrackSearchDescriptor) (sv : SessionService) :
  foldl (λ sv s, perform (Abort s) sv) sv l =
  mkService (dev sv) (state sv) (published sv) (searchSessionInfoProvider sv)
            (appChangeSubscription sv) (curApp sv)
            (effects sv ++ map Abort l).
Proof.
  revert sv. induction l as [|s l IH]; intros sv; simpl.
  - rewrite app_nil_r. by destruct sv.
  - rewrite IH. unfold perform; simpl. by rewrite <- app_assoc.
Qed.

Lemma abortAll_spec (pending : gset positive) (sv : SessionService) :
  abortAll pending sv =
  mkService (dev sv) (state sv) (published sv) (searchSessionInfoProvider sv)
            (appChangeSubscription sv) (curApp sv)
            (effects sv ++ map Abort (elements pending)).
Proof. apply foldl_perform_aborts. Qed.

(** ** [cancel()], for any container *)

(** The synchronous segment of [cancel()] aborts every pending search, runs
    the container's [cancel] transition once, and asks the sessions client to
    delete the identifier the container holds after that transition, only
    when the session was stored before it. *)
Lemma cancel_spec (T : SessionTransitions) (sv : SessionService) :
  let after := (cancel T sv).2 in
  state after = SearchSessionState.cancel T (state sv)
  ∧ published_since sv after = [SearchSessionState.cancel T (state sv)]
  ∧ searchSessionInfoProvider after = searchSessionInfoProvider sv
  ∧ curApp after = curApp sv
  ∧ effects_since sv after =
      map Abort (elements (pendingSearches (state sv)))
      ++ (if SearchSessionState.isStored (state sv)
          then [SessionsClientDelete
                  (sessionId (SearchSessionState.cancel T (state sv)))]
          else []).
Proof.
  unfold cancel. rewrite abortAll_spec.
  destruct (SearchSessionState.isStored (state sv)); simpl;
    repeat split; try reflexivity;
    try (apply published_since_app; reflexivity);
    apply effects_since_app; simpl; by rewrite <- ?app_assoc, ?app_nil_r.
Qed.

(** With a container whose [cancel] keeps the session identifier, a stored
    session is deleted under that identifier; whatever the container, the
    identifier sent is the one read after the transition. *)
Lemma cancel_stored_delete_argument (T : SessionTransitions) (sv : SessionService) :
  SearchSessionState.isStored (state sv) = true →
  delete_calls (effects_since sv (cancel T sv).2) =
  [sessionId (SearchSessionState.cancel T (state sv))].
Proof.
  intros Hs. destruct (cancel_spec T sv) as (_ & _ & _ & _ & ->).
  rewrite Hs, delete_calls_app, delete_calls_aborts. reflexivity.
Qed.


(** At the stored session "S1" of the scenario, with the container as
    described (its [cancel] a full reset): [cancel()] calls
    [sessionsClient.delete] once, and the identifier it passes, read after
    the transition, is absent. *)
Lemma cancel_stored_deletes_absent_id :
  getSessionId (Scenario.saved false) = Some "S1"
  ∧ isStored (Scenario.saved false) = true
  ∧ delete_calls
      (effects_since (Scenario.saved false)
         (cancel sessionPureTransitions (Scenario.saved false)).2) = [None].
Proof.
  split; [reflexivity|]. split; [reflexivity|].
  rewrite cancel_stored_delete_argument by reflexivity. reflexivity.
Qed.



(** C4, the claim as stated fails for [cancel()]: the provider registered
    before the call is still registered after it. *)
Lemma cancel_keeps_provider_example :
  searchSessionInfoProvider (Scenario.searching false) = Some 7%positive
  ∧ searchSessionInfoProvider
      (cancel sessionPureTransitions (Scenario.searching false)).2 ≠ None.
Proof.
  split; [reflexivity|].
  destruct (cancel_spec sessionPureTransitions (Scenario.searching false))
    as (_ & _ & -> & _). discriminate.
Qed.

(** C4, amended: after [clear()] no info provider is registered; [cancel()]
    leaves the registered provider as it was.  Both hold for any container. *)
Theorem clear_releases_provider_cancel_keeps_it
    (T : SessionTransitions) (sv : SessionService) :
  searchSessionInfoProvider (clear T sv) = None
  ∧ searchSessionInfoProvider (cancel T sv).2 = searchSessionInfoProvider sv.
Proof.
  split; [reflexivity|]. by destruct (cancel_spec T sv) as (_ & _ & -> & _).
Qed.

(** C9: after the synchronous segment of [cancel()] the session identifier
    is absent (the container's [cancel] is a full reset), and between the
    call and the [await] the [abort] of each search that was pending at the
    call ran exactly once, that of any other search not at all.  Nothing is
    awaited between two [abort]s.  This holds in every state, an active
    session included. *)
Theorem cancel_clears_id_and_aborts_each_once (sv : SessionService) :
  getSessionId (cancel sessionPureTransitions sv).2 = None
  ∧ ∀ s : TrackSearchDescriptor,
      abort_count s (effects_since sv (cancel sessionPureTransitions sv).2) =
      if decide (s ∈ pendingSearches (state sv)) then 1 else 0.
Proof.
  destruct (cancel_spec sessionPureTransitions sv) as (Hst & _ & _ & _ & Heff).
  split.
  - unfold getSessionId. rewrite Hst. reflexivity.
  - intros s. rewrite Heff, abort_count_app.
    rewrite abort_count_NoDup by apply NoDup_elements.
    replace (abort_count s _) with 0
      by (by destruct (SearchSessionState.isStored (state sv))).
    rewrite Nat.add_0_r.
    destruct (decide (s ∈ elements (pendingSearches (state sv)))) as [Hin|Hout];
      destruct (decide (s ∈ pendingSearches (state sv))) as [Hin'|Hout'];
      try reflexivity.
    + exfalso. apply Hout'. by apply elem_of_elements.
    + exfalso. apply Hout. by apply elem_of_elements.
Qed.

(** ** [save()] *)

Lemma truthy_Some (s : string) : truthy (Some s) = true ↔ s ≠ EmptyString.
Proof. unfold truthy. apply bool_decide_eq_true. Qed.

Lemma truthy_true_Some (v : option string) :
  truthy v = true → ∃ s, v = Some s ∧ s ≠ EmptyString.
Proof.
  destruct v as [s|]; [|discriminate].
  intros H. exists s. split; [reflexivity | by apply truthy_Some].
Qed.

(** What the first segment of [save()] does when it reaches its [await]:
    the three tests passed, the two requests to the provider were made, in
    this order, and the identifier kept for later is the current one. *)
Lemma save_await_inv (sv sv' : SessionService) (k : SaveAwaitingProvider) :
  save sv = (Await k, sv') →
  getSessionId sv = Some (ap_sessionId k)
  ∧ truthy (getSessionId sv) = true
  ∧ truthy (curApp sv) = true
  ∧ ∃ p, searchSessionInfoProvider sv = Some p
         ∧ sv' = perform (GetUrlGeneratorData p) (perform (GetName p) sv).
Proof.
  unfold save. destruct (getSessionId sv) as [id|]; [|discriminate].
  destruct (truthy (Some id)) eqn:Hid; simpl; [|discriminate].
  destruct (truthy (curApp sv)) eqn:Happ; simpl; [|discriminate].
  destruct (searchSessionInfoProvider sv) as [p|]; [|discriminate].
  intros [= <- <-]. repeat split; eauto.
Qed.

Lemma save_provided_await_inv (k : SaveAwaitingProvider)
    (settled : Settled (string * UrlGeneratorData)) (sv sv' : SessionService)
    (k' : SaveAwaitingCreate) :
  save_provided k settled sv = (Await k', sv') →
  ac_sessionId k' = ap_sessionId k
  ∧ ∃ name data, settled = Fulfilled (name, data)
      ∧ effects_since sv sv' =
          [SessionsClientCreate {|
             sd_name := name;
             sd_appId := curApp sv;
             sd_restoreState := restoreState data;
             sd_initialState := initialState data;
             sd_urlGeneratorId := urlGeneratorId data;
             sd_sessionId := ap_sessionId k |}].
Proof.
  unfold save_provided. destruct settled as [[name data]|reason]; [|discriminate].
  intros [= <- <-]. split; [reflexivity|].
  exists name, data. split; [reflexivity|].
  by apply effects_since_app.
Qed.

(** The three precondition errors of [save()], in the order of their tests. *)
Lemma save_messages_NoDup :
  NoDup ["No current session"; "No current app id";
         "No info provider for current session"].
Proof. by apply (bool_decide_unpack _). Qed.

(** C3: [save()] called with no session (the identifier is absent or
    empty), with no current application (absent or empty), or with no info
    provider ends in its first synchronous segment with the error of the
    first test that fails, and the service it leaves is the one it found:
    no call to the provider or to the sessions client, no transition.  The
    three messages differ. *)
Theorem save_precondition_failures (sv : SessionService) :
  (truthy (getSessionId sv) = false →
     save sv = (Done (Throw "No current session"), sv))
  ∧ (truthy (getSessionId sv) = true → truthy (curApp sv) = false →
     save sv = (Done (Throw "No current app id"), sv))
  ∧ (truthy (getSessionId sv) = true → truthy (curApp sv) = true →
     searchSessionInfoProvider sv = None →
     save sv = (Done (Throw "No info provider for current session"), sv))
  ∧ (truthy (getSessionId sv) = false ∨ truthy (curApp sv) = false
     ∨ searchSessionInfoProvider sv = None →
     ∃ message,
       save sv = (Done (Throw message), sv)
       ∧ effects_since sv (save sv).2 = []
       ∧ message ∈ ["No current session"; "No current app id";
                    "No info provider for current session"])
  ∧ NoDup ["No current session"; "No current app id";
            "No info provider for current session"].
Proof.
  assert (Hnil : effects_since sv sv = []).
  { apply effects_since_app. by rewrite app_nil_r. }
  assert (Hthrow : ∀ message,
            message ∈ ["No current session"; "No current app id";
                       "No info provider for current session"] →
            save sv = (Done (Throw message), sv) →
            ∃ message,
              save sv = (Done (Throw message), sv)
              ∧ effects_since sv (save sv).2 = []
              ∧ message ∈ ["No current session"; "No current app id";
                           "No info provider for current session"]).
  { intros message Hin E. exists message. rewrite E. done. }
  assert (H1 : truthy (getSessionId sv) = false →
               save sv = (Done (Throw "No current session"), sv)).
  { unfold save. destruct (getSessionId sv) as [id|]; [|done].
    intros ->. done. }
  assert (H2 : truthy (getSessionId sv) = true → truthy (curApp sv) = false →
               save sv = (Done (Throw "No current app id"), sv)).
  { unfold save. destruct (getSessionId sv) as [id|]; [|done].
    intros -> ->. done. }
  assert (H3 : truthy (getSessionId sv) = true → truthy (curApp sv) = true →
               searchSessionInfoProvider sv = None →
               save sv = (Done (Throw "No info provider for current session"), sv)).
  { unfold save. destruct (getSessionId sv) as [id|]; [|done].
    intros -> -> ->. done. }
  split; [exact H1|]. split; [exact H2|]. split; [exact H3|].
  split; [|exact save_messages_NoDup].
  intros Hfail.
  destruct (truthy (getSessionId sv)) eqn:Hid.
  2:{ apply (Hthrow "No current session"); [by apply (bool_decide_unpack _) | by apply H1]. }
  destruct (truthy (curApp sv)) eqn:Happ.
  2:{ apply (Hthrow "No current app id"); [by apply (bool_decide_unpack _) | by apply H2]. }
  destruct Hfail as [?|[?|Hp]]; try discriminate.
  apply (Hthrow "No info provider for current session"); [by apply (bool_decide_unpack _) | by apply H3].
Qed.

(** C3 at the service as constructed: no session yet. *)
Lemma save_precondition_failures_witness :
  save (constructor false) = (Done (Throw "No current session"), constructor false).
Proof.
  apply (proj1 (save_precondition_failures (constructor false))). reflexivity.
Defined.

(** The last segment of [save()], for any container: the container's
    [store] runs when the identifier kept at the start is still the current
    one, and nothing at all happens otherwise. *)
Lemma save_created_spec (T : SessionTransitions) (k : SaveAwaitingCreate)
    (sv : SessionService) :
  save_created T k (Fulfilled tt) sv =
  (Return tt,
   if decide (getSessionId sv = Some (ac_sessionId k))
   then dispatch (store T) sv else sv).
Proof. unfold save_created. by destruct (decide _). Qed.

(** Whatever the container, its [store] is called at the end of [save()]
    exactly when the identifier kept at the start is still the current one:
    one value is published in that case, none otherwise. *)
Lemma save_created_runs_store_iff (T : SessionTransitions) (k : SaveAwaitingCreate)
    (sv : SessionService) :
  published_since sv (save_created T k (Fulfilled tt) sv).2 =
  if decide (getSessionId sv = Some (ac_sessionId k))
  then [store T (state sv)] else [].
Proof.
  rewrite save_created_spec. cbn [snd].
  destruct (decide _); apply published_since_app; [reflexivity|].
  by rewrite app_nil_r.
Qed.

Lemma spec_store_active (s : SessionStateInternal) (id : string) :
  sessionId s = Some id →
  spec_store s = mkState (Some id) true (SearchSessionState.isRestore s) (pendingSearches s).
Proof. unfold spec_store. by intros ->. Qed.

(** C6: with a session "s1", a current application and a registered
    provider [p], the first segment of [save()] asks [p] for its name and
    for its generator data before it awaits either; when both have settled
    and nothing else ran, [save()] makes one call of [sessionsClient.create],
    with the name, the current application, the two state blobs, the
    generator identifier and the session identifier; and when that has
    settled [isStored()] is true. *)
Theorem save_alone_creates_and_stores (sv : SessionService) (s1 app : string)
    (p : SearchSessionInfoProvider) (name : string) (data : UrlGeneratorData) :
  getSessionId sv = Some s1 → s1 ≠ EmptyString →
  curApp sv = Some app → app ≠ EmptyString →
  searchSessionInfoProvider sv = Some p →
  (∃ k, (save sv).1 = Await k
        ∧ effects_since sv (save sv).2 = [GetName p; GetUrlGeneratorData p])
  ∧ let done :=
      save_alone sessionPureTransitions (Fulfilled (name, data)) (Fulfilled tt) sv in
    done.1 = Return tt
    ∧ effects_since sv done.2 =
        [GetName p; GetUrlGeneratorData p;
         SessionsClientCreate {|
           sd_name := name;
           sd_appId := Some app;
           sd_restoreState := restoreState data;
           sd_initialState := initialState data;
           sd_urlGeneratorId := urlGeneratorId data;
           sd_sessionId := s1 |}]
    ∧ isStored done.2 = true
    ∧ getSessionId done.2 = Some s1.
Proof.
  intros Hid Hs1 Happ Ha Hp.
  assert (Hsave : save sv =
            (Await {| ap_sessionId := s1 |},
             perform (GetUrlGeneratorData p) (perform (GetName p) sv))).
  { unfold save. rewrite Hid, Happ, Hp.
    rewrite (proj2 (truthy_Some s1) Hs1), (proj2 (truthy_Some app) Ha). reflexivity. }
  split.
  - exists {| ap_sessionId := s1 |}. rewrite Hsave. split; [reflexivity|].
    apply effects_since_app. simpl. by rewrite <- app_assoc.
  - unfold save_alone. rewrite Hsave. cbn [save_provided].
    rewrite save_created_spec. cbn [fst snd ac_sessionId ap_sessionId].
    rewrite decide_True by exact Hid.
    split; [reflexivity|]. split; [|split].
    + apply effects_since_app. simpl. rewrite Happ. by rewrite <- !app_assoc.
    + unfold isStored. simpl. unfold getSessionId in Hid.
      by rewrite (spec_store_active _ _ Hid).
    + unfold getSessionId in *. simpl. by rewrite (spec_store_active _ _ Hid).
Qed.

(** C6 at the scenario's service with two searches in flight. *)
Lemma save_alone_creates_and_stores_witness :
  isStored (Scenario.saved false) = true
  ∧ create_calls (effects (Scenario.saved false)) =
      [{| sd_name := "N";
          sd_appId := Some "discover";
          sd_restoreState := {[ "a" := "1" ]};
          sd_initialState := {[ "a" := "1" ]};
          sd_urlGeneratorId := "DISCOVER_APP_URL_GENERATOR";
          sd_sessionId := "S1" |}].
Proof.
  pose proof (save_alone_creates_and_stores (Scenario.searching false)
                "S1" "discover" 7%positive "N" Scenario.name_and_state.2
                eq_refl ltac:(discriminate) eq_refl ltac:(discriminate) eq_refl)
    as (_ & _ & _ & Hstored & _).
  split; [exact Hstored | reflexivity].
Defined.

(** C2: take any call of [save()] that reached [sessionsClient.create]: it
    began at [sv0], its provider requests settled when the service was
    [sv1], and the create call settles, fulfilled, when the service is [sv2]
    (anything may have run in between).  Then the last segment marks the
    state stored exactly when the identifier current at [sv2] is the one
    current at [sv0]; otherwise it leaves the service untouched, so a state
    that was not stored stays not stored. *)
Theorem save_marks_stored_iff_same_session
    (sv0 sv0' sv1 sv1' sv2 : SessionService)
    (k1 : SaveAwaitingProvider) (settled : Settled (string * UrlGeneratorData))
    (k2 : SaveAwaitingCreate) :
  save sv0 = (Await k1, sv0') →
  save_provided k1 settled sv1 = (Await k2, sv1') →
  let after := (save_created sessionPureTransitions k2 (Fulfilled tt) sv2).2 in
  (getSessionId sv2 = getSessionId sv0 →
     isStored after = true ∧ getSessionId after = getSessionId sv0
     ∧ published_since sv2 after = [state after])
  ∧ (getSessionId sv2 ≠ getSessionId sv0 → after = sv2)
  ∧ (isStored sv2 = false →
     (isStored after = true ↔ getSessionId sv2 = getSessionId sv0)).
Proof.
  intros Hsave Hprov after.
  apply save_await_inv in Hsave as (Hid0 & _).
  apply save_provided_await_inv in Hprov as (Hk & _).
  subst after. rewrite save_created_spec, Hk, Hid0. cbn [snd].
  destruct (decide (getSessionId sv2 = Some (ap_sessionId k1))) as [E|NE].
  - assert (Hst : isStored (dispatch (store sessionPureTransitions) sv2) = true
                  ∧ getSessionId (dispatch (store sessionPureTransitions) sv2)
                    = Some (ap_sessionId k1)).
    { unfold isStored, getSessionId in *. simpl.
      by rewrite (spec_store_active _ _ E). }
    destruct Hst as [Hstored Hsame].
    split; [|split].
    + intros _. split; [exact Hstored|]. split; [exact Hsame|].
      by apply published_since_app.
    + intros Hne. by destruct Hne.
    + intros _. split; [by intros _ | by intros _].
  - split; [|split].
    + intros E. by destruct NE.
    + by intros _.
    + intros Hns. split; [intros Hs; congruence | intros E; by destruct NE].
Qed.

(** C2 in the scenario: [save()] begins for "S1"; the session is cleared
    while the create call is in flight; the late result is dropped. *)
Lemma save_marks_stored_iff_same_session_witness :
  let sv0 := Scenario.searching false in
  let sv2 := clear sessionPureTransitions
               (save_provided {| ap_sessionId := "S1" |}
                  (Fulfilled Scenario.name_and_state) (save sv0).2).2 in
  (save_created sessionPureTransitions {| ac_sessionId := "S1" |}
     (Fulfilled tt) sv2).2 = sv2
  ∧ isStored sv2 = false.
Proof.
  intros sv0 sv2. split; [|reflexivity].
  refine (proj1 (proj2 (save_marks_stored_iff_same_session
                   sv0 (save sv0).2 (save sv0).2 _ sv2
                   {| ap_sessionId := "S1" |} (Fulfilled Scenario.name_and_state)
                   {| ac_sessionId := "S1" |} eq_refl eq_refl)) _).
  discriminate.
Defined.

(** The last segment of [save()] reads the session identifier and nothing
    else: the current application and the registered provider pass through
    it, whatever they are. *)
Lemma save_created_frame (T : SessionTransitions) (k : SaveAwaitingCreate)
    (settled : Settled unit) (sv : SessionService)
    (a : option string) (p : option SearchSessionInfoProvider) :
  save_created T k settled (with_curApp a (with_provider p sv)) =
  ((save_created T k settled sv).1,
   with_curApp a (with_provider p (save_created T k settled sv).2)).
Proof.
  unfold save_created. destruct settled as [[]|reason]; [|reflexivity].
  change (getSessionId (with_curApp a (with_provider p sv))) with (getSessionId sv).
  by destruct (decide _).
Qed.

(** C10: the guard of [save()] compares session identifiers and nothing
    else.  Take a call of [save()] that began at [sv0] and reached the create
    call.  (1) If, whatever the service [sv] has become, the session is
    cleared and one with the same identifier is restored before the create
    call settles, the restored session, not stored so far, is marked stored.
    (2) After the first [await], [save()] calls create for any service it
    finds, with whatever the current application then is, and (3) its last
    segment gives the same result whatever the current application and the
    registered provider are. *)
Theorem save_guard_compares_session_ids_only
    (sv0 sv0' sv1 sv1' sv : SessionService)
    (k1 : SaveAwaitingProvider) (settled : Settled (string * UrlGeneratorData))
    (k2 : SaveAwaitingCreate)
    (a : option string) (p : option SearchSessionInfoProvider)
    (name : string) (data : UrlGeneratorData) :
  save sv0 = (Await k1, sv0') →
  save_provided k1 settled sv1 = (Await k2, sv1') →
  let restored :=
    restore sessionPureTransitions (ap_sessionId k1)
      (clear sessionPureTransitions sv) in
  (getSessionId restored = getSessionId sv0
   ∧ isStored restored = false
   ∧ isRestore restored = true
   ∧ isStored (save_created sessionPureTransitions k2 (Fulfilled tt) restored).2
     = true)
  ∧ ((save_provided k1 (Fulfilled (name, data)) sv).1
       = Await {| ac_sessionId := ap_sessionId k1 |}
     ∧ create_calls
         (effects_since sv (save_provided k1 (Fulfilled (name, data)) sv).2) =
         [{| sd_name := name;
             sd_appId := curApp sv;
             sd_restoreState := restoreState data;
             sd_initialState := initialState data;
             sd_urlGeneratorId := urlGeneratorId data;
             sd_sessionId := ap_sessionId k1 |}])
  ∧ save_created sessionPureTransitions k2 (Fulfilled tt)
      (with_curApp a (with_provider p sv)) =
    ((save_created sessionPureTransitions k2 (Fulfilled tt) sv).1,
     with_curApp a
       (with_provider p
          (save_created sessionPureTransitions k2 (Fulfilled tt) sv).2)).
Proof.
  intros Hsave Hprov restored.
  apply save_await_inv in Hsave as (Hid0 & _).
  apply save_provided_await_inv in Hprov as (Hk & _).
  split; [|split].
  - rewrite Hid0. split; [reflexivity|]. split; [reflexivity|].
    split; [reflexivity|].
    rewrite save_created_spec, Hk. cbn [snd].
    rewrite decide_True by reflexivity. reflexivity.
  - split; [reflexivity|].
    erewrite effects_since_app; [|reflexivity]. reflexivity.
  - apply save_created_frame.
Qed.

(** C10 in the scenario: [save()] begins for "S1"; while the create call
    is in flight the session is cleared and "S1" is restored; the create
    call settles and the restored session is marked stored. *)
Lemma save_guard_compares_session_ids_only_witness :
  let sv0 := Scenario.searching false in
  let inflight := (save_provided {| ap_sessionId := "S1" |}
                     (Fulfilled Scenario.name_and_state) (save sv0).2).2 in
  let restored := restore sessionPureTransitions "S1"
                    (clear sessionPureTransitions inflight) in
  isStored restored = false
  ∧ isStored (save_created sessionPureTransitions {| ac_sessionId := "S1" |}
                (Fulfilled tt) restored).2 = true.
Proof.
  intros sv0 inflight restored.
  pose proof (save_guard_compares_session_ids_only
                sv0 (save sv0).2 (save sv0).2 _ inflight
                {| ap_sessionId := "S1" |} (Fulfilled Scenario.name_and_state)
                {| ac_sessionId := "S1" |} None None "N" Scenario.name_and_state.2
                eq_refl eq_refl) as ((_ & Hbefore & _ & Hafter) & _).
  split; [exact Hbefore | exact Hafter].
Defined.

(** ** The navigation watcher *)

(** C5, the claim as stated fails in a development build: the watcher finds
    the session "S1" open when the application changes, schedules the
    fatal-error report, and neither it nor the timer's callback clears the
    session: no transition runs, the session and its provider stay. *)
Lemma navigation_dev_build_keeps_session :
  let sv := Scenario.searching true in
  let message := "Application 'discover' had an open session while navigating" in
  let left := onAppChange sessionPureTransitions (Some "dashboards") sv in
  let fired := onTimeout (AddFatalError message) left in
  truthy (getSessionId sv) = true
  ∧ effects_since sv left = [SetTimeout (AddFatalError message) 100]
  ∧ effects_since left fired = [FatalErrorsAdd message]
  ∧ published_since sv fired = []
  ∧ getSessionId fired = Some "S1"
  ∧ getSessionId fired ≠ None
  ∧ searchSessionInfoProvider fired = Some 7%positive.
Proof. repeat split; (reflexivity || discriminate). Qed.

(** C5, amended: on every application change the watcher sets the current
    application to the one announced.  With no session open it does nothing
    else.  With a session open, a production build warns on the console and
    clears at once (the container's [clear] runs and the provider is
    released); a development build only schedules, 100 ms later, a report on
    the fatal-error channel: the session, its pending searches and its
    provider are left as they were, also once the timer has fired. *)
Theorem navigation_watcher (T : SessionTransitions) (sv : SessionService)
    (appName : option string) :
  let message :=
    ("Application '" +:+ template (curApp sv)
       +:+ "' had an open session while navigating")%string in
  let after := onAppChange T appName sv in
  let fired := onTimeout (AddFatalError message) after in
  curApp after = appName
  ∧ (truthy (getSessionId sv) = false → after = with_curApp appName sv)
  ∧ (truthy (getSessionId sv) = true → dev sv = false →
       effects_since sv after = [ConsoleWarn message]
       ∧ state after = SearchSessionState.clear T (state sv)
       ∧ published_since sv after = [SearchSessionState.clear T (state sv)]
       ∧ searchSessionInfoProvider after = None)
  ∧ (truthy (getSessionId sv) = true → dev sv = false →
       getSessionId (onAppChange sessionPureTransitions appName sv) = None)
  ∧ (truthy (getSessionId sv) = true → dev sv = true →
       effects_since sv after = [SetTimeout (AddFatalError message) 100]
       ∧ state after = state sv
       ∧ published_since sv after = []
       ∧ searchSessionInfoProvider after = searchSessionInfoProvider sv
       ∧ effects_since after fired = [FatalErrorsAdd message]
       ∧ state fired = state sv
       ∧ published_since sv fired = []
       ∧ searchSessionInfoProvider fired = searchSessionInfoProvider sv).
Proof.
  intros message after fired. subst fired after. unfold onAppChange, getSessionId.
  assert (Hnil : ∀ A (l : list A), drop (length l) l = []).
  { intros A l. rewrite <- (app_nil_r l) at 2. apply drop_app_length. }
  destruct (truthy (sessionId (state sv))) eqn:Hopen; destruct (dev sv) eqn:Hdev;
    fold message; cbn [onTimeout];
    (split; [reflexivity|]); (split; [done|]); (split; [|split]); try done.
  - intros _ _. repeat split; try reflexivity;
      try (by apply effects_since_app); try (by apply published_since_app);
      apply Hnil.
  - intros _ _. repeat split; try reflexivity;
      try (by apply effects_since_app); by apply published_since_app.
Qed.

(** C5, amended, at the two builds of the scenario: the production build
    ends with no session and no provider, the development build with both. *)
Lemma navigation_watcher_witness :
  getSessionId (onAppChange sessionPureTransitions (Some "dashboards")
                  (Scenario.searching false)) = None
  ∧ state (onAppChange sessionPureTransitions (Some "dashboards")
             (Scenario.searching true)) = state (Scenario.searching true).
Proof.
  pose proof (navigation_watcher sessionPureTransitions (Scenario.searching false)
                (Some "dashboards")) as (_ & _ & _ & Hprod & _).
  pose proof (navigation_watcher sessionPureTransitions (Scenario.searching true)
                (Some "dashboards")) as (_ & _ & _ & _ & Hdev).
  split.
  - apply Hprod; reflexivity.
  - apply Hdev; reflexivity.
Defined.

(** ** The session identifier stream *)

Section DistinctUntilChanged.

Context {A : Type} `{EqDecision A}.

Lemma last_seen_cons (before : option A) (a : A) (source : list A) :
  Rx.last_seen before (a :: source) = Rx.last_seen (Some a) source.
Proof.
  unfold Rx.last_seen. destruct source as [|b source]; [reflexivity|].
  rewrite last_cons. by destruct (last (b :: source)).
Qed.

Lemma distinctUntilChanged_from_app (before : option A) (xs ys : list A) :
  Rx.distinctUntilChanged_from before (xs ++ ys) =
  Rx.distinctUntilChanged_from before xs
  ++ Rx.distinctUntilChanged_from (Rx.last_seen before xs) ys.
Proof.
  revert before. induction xs as [|x xs IH]; intros before; [reflexivity|].
  rewrite last_seen_cons. cbn [app Rx.distinctUntilChanged_from].
  destruct (decide (before = Some x)) as [->|NE].
  - apply IH.
  - rewrite IH. reflexivity.
Qed.

(** The first value let through differs from the one seen before. *)
Lemma distinctUntilChanged_from_head (before : option A) (xs : list A) (a : A) :
  head (Rx.distinctUntilChanged_from before xs) = Some a → before ≠ Some a.
Proof.
  induction xs as [|x xs IH]; [discriminate|].
  cbn [Rx.distinctUntilChanged_from].
  destruct (decide (before = Some x)) as [E|NE]; [exact IH|].
  intros [= <-]. exact NE.
Qed.

(** No value is let through twice in a row. *)
Lemma distinctUntilChanged_from_adjacent (before : option A) (xs : list A)
    (i : nat) (a b : A) :
  Rx.distinctUntilChanged_from before xs !! i = Some a →
  Rx.distinctUntilChanged_from before xs !! S i = Some b →
  a ≠ b.
Proof.
  revert before i. induction xs as [|x xs IH]; intros before i; [discriminate|].
  cbn [Rx.distinctUntilChanged_from].
  destruct (decide (before = Some x)) as [E|NE]; [apply IH|].
  destruct i as [|i]; [|apply IH].
  intros [= <-] Hb Eab.
  apply (distinctUntilChanged_from_head (Some x) xs b); [|by rewrite Eab].
  by rewrite head_lookup.
Qed.

End DistinctUntilChanged.

(** The stream of [getSession$()] is the stream of identifiers with the
    repeats that follow one another removed. *)
Lemma getSession_dollar_unfold (atCall atSubscribe : SessionStateInternal)
    (later : list SessionStateInternal) :
  getSession_dollar atCall atSubscribe later =
  sessionId atCall
  :: Rx.distinctUntilChanged_from (Some (sessionId atCall))
       (map sessionId (atSubscribe :: later)).
Proof. reflexivity. Qed.

Lemma last_seen_states (atCall atSubscribe : SessionStateInternal)
    (later : list SessionStateInternal) :
  Rx.last_seen (Some (sessionId atCall)) (map sessionId (atSubscribe :: later)) =
  Some (sessionId (current_after atSubscribe later)).
Proof.
  unfold current_after. generalize (Some (sessionId atCall)) as before.
  revert atSubscribe. induction later as [|s later IH]; intros atSubscribe before.
  - reflexivity.
  - change (map sessionId (atSubscribe :: s :: later))
      with (sessionId atSubscribe :: map sessionId (s :: later)).
    rewrite last_seen_cons, IH, last_cons. by destruct (last later).
Qed.

(** After a transition the container holds the value it has just
    published. *)
Lemma dispatch_current_after (f : SessionStateInternal → SessionStateInternal)
    (sv : SessionService) :
  state (dispatch f sv) =
  current_after (state sv) (published_since sv (dispatch f sv)).
Proof.
  rewrite (published_since_app sv (dispatch f sv) [f (state sv)]); reflexivity.
Qed.

(** Tracking a search keeps the session identifier. *)
Lemma spec_trackSearch_sessionId (d : TrackSearchDescriptor) (s : SessionStateInternal) :
  sessionId (SearchSessionState.trackSearch sessionPureTransitions d s) = sessionId s.
Proof. destruct s as [[id|] st re pe]; reflexivity. Qed.

(** C7, the claim as stated fails: restore "S1", clear, restore "S1" again;
    a subscriber of [getSession$()] from the start receives "S1" twice. *)
Lemma getSession_emits_same_id_twice :
  let sv0 := constructor false in
  let sv3 :=
    restore sessionPureTransitions "S1"
      (clear sessionPureTransitions
         (restore sessionPureTransitions "S1" sv0)) in
  getSession_dollar (state sv0) (state sv0) (published_since sv0 sv3) =
    [None; Some "S1"; None; Some "S1"]
  ∧ ¬ NoDup (getSession_dollar (state sv0) (state sv0) (published_since sv0 sv3)).
Proof.
  split; [reflexivity|].
  intros Hnd.
  change (NoDup [None; Some "S1"; None; Some "S1"]) in Hnd.
  apply NoDup_cons in Hnd as [Hnot _]. apply Hnot.
  by apply (bool_decide_unpack _).
Qed.

(** C7, amended: the stream of [getSession$()] starts with the identifier
    current at the call (followed by the one current at the subscription if
    it differs), never repeats a value it has just emitted, and emits once
    for each publication of the container whose identifier differs from that
    of the publication before it; a publication that keeps the identifier, as
    the one of [trackSearch], emits nothing.  An identifier that comes back
    after another one is emitted again. *)
Theorem getSession_emits_on_id_change (atCall atSubscribe : SessionStateInternal)
    (later : list SessionStateInternal) :
  let emitted := getSession_dollar atCall atSubscribe later in
  emitted !! 0 = Some (sessionId atCall)
  ∧ getSession_dollar atCall atSubscribe [] =
      sessionId atCall
      :: (if decide (sessionId atSubscribe = sessionId atCall)
          then [] else [sessionId atSubscribe])
  ∧ (∀ i a b, emitted !! i = Some a → emitted !! S i = Some b → a ≠ b)
  ∧ (∀ s : SessionStateInternal,
       getSession_dollar atCall atSubscribe (later ++ [s]) =
       emitted ++ (if decide (sessionId s = sessionId (current_after atSubscribe later))
                   then [] else [sessionId s]))
  ∧ (∀ d : TrackSearchDescriptor,
       getSession_dollar atCall atSubscribe
         (later ++ [SearchSessionState.trackSearch sessionPureTransitions d
                      (current_after atSubscribe later)]) = emitted).
Proof.
  intros emitted.
  assert (Hsnoc : ∀ s : SessionStateInternal,
            getSession_dollar atCall atSubscribe (later ++ [s]) =
            emitted ++ (if decide (sessionId s = sessionId (current_after atSubscribe later))
                        then [] else [sessionId s])).
  { intros s. subst emitted. rewrite !getSession_dollar_unfold.
    change (atSubscribe :: later ++ [s]) with ((atSubscribe :: later) ++ [s]).
    rewrite map_app, distinctUntilChanged_from_app, last_seen_states.
    cbn [map Rx.distinctUntilChanged_from app].
    destruct (decide (Some (sessionId (current_after atSubscribe later)) = Some (sessionId s)))
      as [E|NE];
      destruct (decide (sessionId s = sessionId (current_after atSubscribe later)))
      as [E'|NE']; try reflexivity; congruence. }
  split; [reflexivity|]. split; [|split; [|split]].
  - rewrite getSession_dollar_unfold. cbn [map Rx.distinctUntilChanged_from].
    destruct (decide (Some (sessionId atCall) = Some (sessionId atSubscribe)))
      as [E|NE];
      destruct (decide (sessionId atSubscribe = sessionId atCall)) as [E'|NE'];
      try reflexivity; congruence.
  - intros i a b. subst emitted. unfold getSession_dollar, Rx.distinctUntilChanged.
    apply distinctUntilChanged_from_adjacent.
  - exact Hsnoc.
  - intros d. rewrite Hsnoc.
    rewrite decide_True; [by rewrite app_nil_r|].
    apply spec_trackSearch_sessionId.
Qed.

(** ** Tracking pending searches *)

(** The container's value after [trackSearch] and after the closure it
    returns, for any container. *)
Lemma trackSearch_spec (T : SessionTransitions) (d : TrackSearchDescriptor)
    (sv : SessionService) :
  (trackSearch T d sv).1 = untrack T d
  ∧ state (trackSearch T d sv).2 = SearchSessionState.trackSearch T d (state sv)
  ∧ ∀ sv' : SessionService,
      state (untrack T d sv') = unTrackSearch T d (state sv').
Proof. repeat split. Qed.

Lemma pending_remove_absent (d : TrackSearchDescriptor) (X : gset positive) :
  d ∉ X → X ∖ {[d]} = X.
Proof. intros Hout. apply difference_disjoint_L. by apply disjoint_singleton_r. Qed.

Lemma pending_remove_elem (d d' : TrackSearchDescriptor) (X : gset positive) :
  d' ∈ X ∖ {[d]} ↔ d' ∈ X ∧ d' ≠ d.
Proof. by rewrite elem_of_difference, elem_of_singleton. Qed.

Lemma pending_remove_twice (d : TrackSearchDescriptor) (X : gset positive) :
  (X ∖ {[d]}) ∖ {[d]} = X ∖ {[d]}.
Proof. apply pending_remove_absent. rewrite pending_remove_elem. tauto. Qed.

(** With the container as described: [trackSearch(d)] returns the closure
    that untracks [d].  While a session is open, [d] is pending after the
    call, next to what was pending before; with no session open the described
    container leaves its value as it was.  The closure removes [d] and
    nothing else from the pending searches and keeps the rest of the
    container's value; run when [d] is not pending it leaves that value as it
    was, so a second run changes nothing. *)
Lemma trackSearch_untrack_described (d : TrackSearchDescriptor)
    (sv : SessionService) :
  let tracked := (trackSearch sessionPureTransitions d sv).2 in
  let untrack_d := (trackSearch sessionPureTransitions d sv).1 in
  untrack_d = untrack sessionPureTransitions d
  ∧ (getSessionId sv ≠ None →
       d ∈ pendingSearches (state tracked)
       ∧ pendingSearches (state tracked) = {[d]} ∪ pendingSearches (state sv)
       ∧ getSessionId tracked = getSessionId sv
       ∧ isStored tracked = isStored sv
       ∧ isRestore tracked = isRestore sv)
  ∧ (getSessionId sv = None → state tracked = state sv)
  ∧ (∀ sv' : SessionService,
       pendingSearches (state (untrack_d sv')) = pendingSearches (state sv') ∖ {[d]}
       ∧ (∀ d', d' ∈ pendingSearches (state (untrack_d sv'))
                ↔ d' ∈ pendingSearches (state sv') ∧ d' ≠ d)
       ∧ getSessionId (untrack_d sv') = getSessionId sv'
       ∧ isStored (untrack_d sv') = isStored sv'
       ∧ isRestore (untrack_d sv') = isRestore sv'
       ∧ (d ∉ pendingSearches (state sv') → state (untrack_d sv') = state sv')
       ∧ state (untrack_d (untrack_d sv')) = state (untrack_d sv')).
Proof.
  intros tracked untrack_d. subst tracked untrack_d.
  destruct (trackSearch_spec sessionPureTransitions d sv) as (-> & Hst & Hun).
  unfold getSessionId, isStored, isRestore. rewrite Hst.
  cbn [SearchSessionState.trackSearch sessionPureTransitions].
  split; [reflexivity|]. split; [|split].
  - unfold spec_trackSearch. destruct (sessionId (state sv)) as [id|]; [|done].
    intros _. cbn. repeat split.
    apply elem_of_union_l. by apply elem_of_singleton_2.
  - unfold spec_trackSearch. by intros ->.
  - intros sv'. rewrite !Hun.
    cbn [SearchSessionState.unTrackSearch sessionPureTransitions].
    unfold spec_unTrackSearch. cbn.
    split; [reflexivity|]. split; [intros d'; apply pending_remove_elem|].
    repeat (split; [reflexivity|]). split.
    + intros Hout. rewrite pending_remove_absent by exact Hout.
      by destruct (state sv').
    + by rewrite pending_remove_twice.
Qed.



(** * Further properties of the code *)

(** ** The session identifier stream: nothing lost, nothing stale *)

Section DistinctUntilChangedMore.

Context {A : Type} `{EqDecision A}.

(** What [distinctUntilChanged] lets through is taken from its source, in
    the order of the source. *)
Lemma distinctUntilChanged_from_sublist (before : option A) (xs : list A) :
  sublist (Rx.distinctUntilChanged_from before xs) xs.
Proof.
  revert before. induction xs as [|x xs IH]; intros before; [constructor|].
  cbn [Rx.distinctUntilChanged_from].
  destruct (decide (before = Some x)).
  - apply sublist_cons. apply IH.
  - apply sublist_skip. apply IH.
Qed.

(** A value of the source is let through, unless it is the one seen before
    the source began. *)
Lemma distinctUntilChanged_from_complete (before : option A) (xs : list A) (a : A) :
  a ∈ xs → a ∈ Rx.distinctUntilChanged_from before xs ∨ before = Some a.
Proof.
  revert before. induction xs as [|x xs IH]; intros before Hin.
  - by apply elem_of_nil in Hin.
  - cbn [Rx.distinctUntilChanged_from].
    apply elem_of_cons in Hin as [->|Hin].
    + destruct (decide (before = Some x)) as [E|NE]; [by right|].
      left. apply list_elem_of_here.
    + destruct (decide (before = Some x)) as [E|NE]; [by apply IH|].
      destruct (IH (Some x) Hin) as [Hl|[= ->]].
      * left. by apply list_elem_of_further.
      * left. apply list_elem_of_here.
Qed.

(** The value let through last is the last value of the source. *)
Lemma distinctUntilChanged_from_last (before : option A) (xs : list A) :
  match last (Rx.distinctUntilChanged_from before xs) with
  | Some a => Some a
  | None => before
  end = Rx.last_seen before xs.
Proof.
  revert before. induction xs as [|x xs IH]; intros before; [reflexivity|].
  rewrite last_seen_cons. cbn [Rx.distinctUntilChanged_from].
  destruct (decide (before = Some x)) as [->|NE]; [apply IH|].
  rewrite last_cons, <- (IH (Some x)).
  by destruct (last (Rx.distinctUntilChanged_from (Some x) xs)).
Qed.

End DistinctUntilChangedMore.

(** The identifiers a subscriber of [getSession$()] is handed by the
    operators above [distinctUntilChanged]. *)
Lemma getSession_dollar_source (atCall atSubscribe : SessionStateInternal)
    (later : list SessionStateInternal) :
  getSession_dollar atCall atSubscribe later =
  Rx.distinctUntilChanged_from None (map sessionId (atCall :: atSubscribe :: later)).
Proof. reflexivity. Qed.

(** The subscriber of [getSession$()] is never left with an old identifier:
    the last value it has received is the identifier of the value the
    container published last (of the one it held at the subscription, when
    it has published none since). *)
Theorem getSession_last_is_current (atCall atSubscribe : SessionStateInternal)
    (later : list SessionStateInternal) :
  last (getSession_dollar atCall atSubscribe later) =
  Some (sessionId (current_after atSubscribe later)).
Proof.
  rewrite <- (last_seen_states atCall atSubscribe later).
  rewrite <- (distinctUntilChanged_from_last (Some (sessionId atCall))).
  rewrite getSession_dollar_unfold, last_cons.
  by destruct (last (Rx.distinctUntilChanged_from _ _)).
Qed.

(** The stream of [getSession$()] loses no identifier and invents none: an
    identifier is emitted exactly when the container held it at the call, at
    the subscription or in a value published afterwards, and the emissions
    come in the order in which the container held them. *)
Theorem getSession_emits_every_id_in_order
    (atCall atSubscribe : SessionStateInternal)
    (later : list SessionStateInternal) :
  (∀ id : option string,
     id ∈ getSession_dollar atCall atSubscribe later
     ↔ id ∈ map sessionId (atCall :: atSubscribe :: later))
  ∧ sublist (getSession_dollar atCall atSubscribe later)
      (map sessionId (atCall :: atSubscribe :: later)).
Proof.
  rewrite getSession_dollar_source.
  pose proof (distinctUntilChanged_from_sublist None
                (map sessionId (atCall :: atSubscribe :: later))) as Hsub.
  split; [|exact Hsub].
  intros id. split.
  - intros Hin. eapply elem_of_sublist; eassumption.
  - intros Hin.
    by destruct (distinctUntilChanged_from_complete None _ id Hin).
Qed.

(** ** [save()] and [cancel()] as whole calls *)

Lemma effects_since_refl (sv : SessionService) : effects_since sv sv = [].
Proof. apply effects_since_app. by rewrite app_nil_r. Qed.

Lemma published_since_refl (sv : SessionService) : published_since sv sv = [].
Proof. apply published_since_app. by rewrite app_nil_r. Qed.

(** A call of [save()] that nothing interleaves with, for any container.
    Its promise is fulfilled exactly when the three tests pass and both the
    provider's promises and the create call are fulfilled; the container's
    [store] then ran once.  In every other case the container's value is the
    one [save()] found and nothing was published.  The create call is made
    once when the tests pass and the provider's promises are fulfilled, and
    not at all otherwise; it is never repeated.  [save()] never assigns the
    provider or the current application. *)
Theorem save_alone_outcomes (T : SessionTransitions)
    (provided : Settled (string * UrlGeneratorData)) (created : Settled unit)
    (sv : SessionService) :
  let done := save_alone T provided created sv in
  let ready :=
    truthy (getSessionId sv) && truthy (curApp sv)
    && bool_decide (is_Some (searchSessionInfoProvider sv)) in
  (done.1 = Return tt
     ↔ ready = true ∧ (∃ v, provided = Fulfilled v) ∧ (∃ u, created = Fulfilled u))
  ∧ (done.1 = Return tt →
       state done.2 = store T (state sv)
       ∧ published_since sv done.2 = [store T (state sv)])
  ∧ (done.1 ≠ Return tt →
       state done.2 = state sv ∧ published_since sv done.2 = [])
  ∧ length (create_calls (effects_since sv done.2)) =
      (if ready then match provided with Fulfilled _ => 1 | Rejected _ => 0 end
       else 0)
  ∧ searchSessionInfoProvider done.2 = searchSessionInfoProvider sv
  ∧ curApp done.2 = curApp sv.
Proof.
  intros done ready. subst done ready. unfold save_alone, save.
  pose proof (effects_since_refl sv) as Hnil.
  pose proof (published_since_refl sv) as Hpub.
  destruct (getSessionId sv) as [sid|] eqn:Hid;
    cbn -[effects_since published_since create_calls].
  2:{ rewrite Hnil, Hpub. repeat split; try done. by intros (? & _). }
  destruct (bool_decide (sid ≠ EmptyString)) eqn:Hne;
    cbn -[effects_since published_since create_calls].
  2:{ rewrite Hnil, Hpub. repeat split; try done. by intros (? & _). }
  destruct (truthy (curApp sv)) eqn:Happ;
    cbn -[effects_since published_since create_calls].
  2:{ rewrite Hnil, Hpub. repeat split; try done. by intros (? & _). }
  destruct (searchSessionInfoProvider sv) as [p|] eqn:Hp;
    cbn -[effects_since published_since create_calls].
  2:{ rewrite Hnil, Hpub. repeat split; try done. by intros (? & _). }
  destruct provided as [[name data]|reason];
    cbn -[effects_since published_since create_calls].
  2:{ repeat split;
        first [ done
              | by intros (_ & [? ?] & _)
              | by (apply published_since_app; simpl; rewrite app_nil_r)
              | by erewrite effects_since_app by (simpl; by rewrite <- app_assoc) ]. }
  destruct created as [[]|reason];
    cbn -[effects_since published_since create_calls].
  - rewrite decide_True by exact Hid.
    cbn -[effects_since published_since create_calls].
    repeat split;
      first [ done
            | by eauto
            | by apply published_since_app
            | by erewrite effects_since_app by (simpl; by rewrite <- !app_assoc) ].
  - repeat split;
      first [ done
            | by intros (_ & _ & [? ?])
            | by (apply published_since_app; simpl; rewrite app_nil_r)
            | by erewrite effects_since_app by (simpl; by rewrite <- !app_assoc) ].
Qed.

(** A call of [cancel()] that nothing interleaves with, for any container.
    Its promise is rejected exactly when the session was stored and the
    delete call is rejected, and then with the reason of that call.  Either
    way the calls it has made are the aborts of the pending searches, once
    each, followed, when the session was stored, by one delete call whose
    argument is the identifier the container holds after its [cancel]
    transition, which has then run, once: a failed delete undoes nothing, and
    the delete call is not repeated. *)
Theorem cancel_alone_outcomes (T : SessionTransitions) (deleted : Settled unit)
    (sv : SessionService) :
  let done := Calls.cancel_alone T deleted sv in
  (done.1 = Return tt ↔ isStored sv = false ∨ ∃ u, deleted = Fulfilled u)
  ∧ (∀ reason, isStored sv = true → deleted = Rejected reason →
       done.1 = Throw reason)
  ∧ state done.2 = SearchSessionState.cancel T (state sv)
  ∧ published_since sv done.2 = [SearchSessionState.cancel T (state sv)]
  ∧ (∀ s, abort_count s (effects_since sv done.2) =
          if decide (s ∈ pendingSearches (state sv)) then 1 else 0)
  ∧ length (delete_calls (effects_since sv done.2)) =
      (if isStored sv then 1 else 0)
  ∧ ∃ aborted : list TrackSearchDescriptor,
      effects_since sv done.2 =
        map Abort aborted
        ++ (if isStored sv
            then [SessionsClientDelete
                    (sessionId (SearchSessionState.cancel T (state sv)))]
            else [])
      ∧ NoDup aborted
      ∧ ∀ s, s ∈ aborted ↔ s ∈ pendingSearches (state sv).
Proof.
  intros done.
  assert (Hdone : done.2 = (cancel T sv).2
                  ∧ done.1 = if isStored sv
                             then match deleted with
                                  | Fulfilled _ => Return tt
                                  | Rejected reason => Throw reason
                                  end
                             else Return tt).
  { subst done. unfold Calls.cancel_alone, cancel, isStored.
    destruct (SearchSessionState.isStored (state sv)); [|done].
    by destruct deleted. }
  destruct Hdone as [-> Hout].
  destruct (cancel_spec T sv) as (Hst & Hpub & _ & _ & Heff).
  split; [|split; [|split; [|split; [|split; [|split]]]]]; try done.
  - rewrite Hout. destruct (isStored sv); [|by intuition].
    destruct deleted; split; try done; eauto.
    + by intros [?|[? ?]].
  - intros reason Hs ->. by rewrite Hout, Hs.
  - intros s. rewrite Heff, abort_count_app.
    rewrite abort_count_NoDup by apply NoDup_elements.
    replace (abort_count s _) with 0
      by (by destruct (SearchSessionState.isStored (state sv))).
    rewrite Nat.add_0_r.
    destruct (decide (s ∈ elements (pendingSearches (state sv)))) as [Hin|Hout'];
      destruct (decide (s ∈ pendingSearches (state sv))) as [Hin'|Hout''];
      try reflexivity.
    + exfalso. apply Hout''. by apply elem_of_elements.
    + exfalso. apply Hout'. by apply elem_of_elements.
  - rewrite Heff, delete_calls_app, delete_calls_aborts. unfold isStored.
    by destruct (SearchSessionState.isStored (state sv)).
  - exists (elements (pendingSearches (state sv))).
    split; [exact Heff|]. split; [apply NoDup_elements|].
    intros s. apply elem_of_elements.
Qed.

(** [destroy()], for any container: it unsubscribes the navigation watcher
    when the subscription exists and makes no other call to a collaborator,
    then clears (one run of the container's [clear], the provider released).
    The subscription is made when the start services resolve, so a
    [destroy()] that comes before unsubscribes nothing and the watcher is
    subscribed afterwards all the same. *)
Theorem destroy_unsubscribes_what_exists (T : SessionTransitions)
    (sv : SessionService) (devMode : bool) :
  effects_since sv (destroy T sv) =
    (if appChangeSubscription sv then [Unsubscribe] else [])
  ∧ state (destroy T sv) = SearchSessionState.clear T (state sv)
  ∧ published_since sv (destroy T sv) = [SearchSessionState.clear T (state sv)]
  ∧ searchSessionInfoProvider (destroy T sv) = None
  ∧ curApp (destroy T sv) = curApp sv
  ∧ effects (onStartServices (destroy T (constructor devMode))) = []
  ∧ appChangeSubscription (onStartServices (destroy T (constructor devMode))) = true.
Proof.
  unfold destroy. destruct (appChangeSubscription sv); repeat split;
    first [ by apply published_since_app
          | by apply effects_since_app
          | by (apply effects_since_app; simpl; rewrite app_nil_r) ].
Qed.

(** ** Which call reaches which collaborator *)

Section Runs.
Import Calls.

Variable T : SessionTransitions.

Lemma Forall_aborts (P : Effect → Prop) (l : list TrackSearchDescriptor) :
  (∀ s, P (Abort s)) → Forall P (map Abort l).
Proof. intros HP. apply Forall_fmap, Forall_true. intros s. apply HP. Qed.

(** One piece of the service extends the trace, by calls it may make. *)
Lemma step_adds (c : Call) (sv : SessionService) :
  ∃ new, effects (step T c sv) = effects sv ++ new
         ∧ Forall (λ e, may_cause c e = true) new.
Proof.
  destruct c; cbn [step].
  - exists []. rewrite app_nil_r. by split.
  - exists []. rewrite app_nil_r. by split.
  - exists []. rewrite app_nil_r. by split.
  - unfold destroy. destruct (appChangeSubscription sv).
    + exists [Unsubscribe]. split; [reflexivity | by repeat constructor].
    + exists []. rewrite app_nil_r. by split.
  - exists []. rewrite app_nil_r. by split.
  - exists []. rewrite app_nil_r. by split.
  - exists []. rewrite app_nil_r. by split.
  - exists [RefreshNext]. split; [reflexivity | by repeat constructor].
  - unfold cancel. rewrite abortAll_spec.
    destruct (SearchSessionState.isStored (state sv)); cbn.
    + eexists. rewrite <- app_assoc. split; [reflexivity|].
      apply Forall_app. split; [by apply Forall_aborts | by repeat constructor].
    + eexists. split; [reflexivity | by apply Forall_aborts].
  - exists []. rewrite app_nil_r. split; [by destruct settled | constructor].
  - unfold save. destruct (getSessionId sv) as [sid|];
      [|exists []; rewrite app_nil_r; by split].
    destruct (truthy (Some sid)); cbn [negb];
      [|exists []; rewrite app_nil_r; by split].
    destruct (truthy (curApp sv)); cbn [negb];
      [|exists []; rewrite app_nil_r; by split].
    destruct (searchSessionInfoProvider sv) as [p|];
      [|exists []; rewrite app_nil_r; by split].
    exists [GetName p; GetUrlGeneratorData p]. cbn. rewrite <- app_assoc.
    split; [reflexivity | by repeat constructor].
  - destruct settled as [[name data]|reason]; cbn.
    + eexists. split; [reflexivity | by repeat constructor].
    + exists []. rewrite app_nil_r. by split.
  - exists []. rewrite app_nil_r. split; [|constructor]. unfold save_created.
    destruct settled as [[]|reason]; [|reflexivity]. by destruct (decide _).
  - exists []. rewrite app_nil_r. by split.
  - unfold onAppChange. destruct (truthy (sessionId (state sv)));
      [|exists []; rewrite app_nil_r; by split].
    destruct (dev sv); cbn.
    + eexists. split; [reflexivity | by repeat constructor].
    + eexists. split; [reflexivity | by repeat constructor].
  - destruct cb. eexists. split; [reflexivity | by repeat constructor].
Qed.

Lemma run_adds (cs : list Call) (sv : SessionService) :
  ∃ new, effects (run T cs sv) = effects sv ++ new
         ∧ Forall (λ e, ∃ c, c ∈ cs ∧ may_cause c e = true) new.
Proof.
  revert sv. induction cs as [|c cs IH]; intros sv.
  - exists []. rewrite app_nil_r. by split.
  - cbn [run foldl]. destruct (step_adds c sv) as (new1 & E1 & H1).
    destruct (IH (step T c sv)) as (new2 & E2 & H2).
    exists (new1 ++ new2). unfold run in E2. rewrite E2, E1, <- app_assoc.
    split; [reflexivity|]. apply Forall_app. split.
    + eapply Forall_impl; [exact H1|]. intros e He. exists c.
      split; [apply list_elem_of_here | exact He].
    + eapply Forall_impl; [exact H2|]. intros e (c' & Hin & He). exists c'.
      split; [by apply list_elem_of_further | exact He].
Qed.

End Runs.

(** Over any sequence of calls, resumptions and callbacks, and for any
    container, every call to a collaborator is made by the piece of the
    service that owns it: a pending search is aborted and the sessions client
    is asked to delete only by [cancel()]; the sessions client is asked to
    create only by a [save()] resumed after its provider's promises; the
    provider is asked for its name and its generator data only by the first
    segment of [save()]; console warnings and timers only come from the
    navigation watcher, fatal errors from its timers, [unsubscribe] from
    [destroy()], the refresh signal from [refresh()].  So [clear()],
    [destroy()], [start()], [restore()] and the watcher never abort a search
    and never delete a stored session. *)
Theorem collaborator_calls_have_one_origin (T : SessionTransitions)
    (cs : list Calls.Call) (sv : SessionService) (e : Effect) :
  e ∈ effects_since sv (Calls.run T cs sv) →
  ∃ c, c ∈ cs ∧ Calls.may_cause c e = true.
Proof.
  destruct (run_adds T cs sv) as (new & E & Hall).
  rewrite (effects_since_app _ _ _ E). intros Hin.
  by apply (proj1 (Forall_forall _ _) Hall).
Qed.

(** The stored session of the scenario is cancelled, then a new session is
    started: the delete call in the trace comes from the [cancel()]. *)
Lemma collaborator_calls_have_one_origin_witness :
  ∃ c, c ∈ [Calls.CallCancel; Calls.CallStart "S2"]
       ∧ Calls.may_cause c (SessionsClientDelete None) = true.
Proof.
  apply (collaborator_calls_have_one_origin sessionPureTransitions
           [Calls.CallCancel; Calls.CallStart "S2"] (Scenario.saved false)).
  by apply (bool_decide_unpack _).
Defined.

(** ** What the calls leave alone *)

Lemma step_keeps_provider (T : SessionTransitions) (c : Calls.Call)
    (sv : SessionService) :
  Calls.assigns_provider c = false →
  searchSessionInfoProvider (Calls.step T c sv) = searchSessionInfoProvider sv.
Proof.
  destruct c; try discriminate; intros _; cbn [Calls.step]; try reflexivity.
  - by destruct (cancel_spec T sv) as (_ & _ & -> & _).
  - by destruct settled.
  - unfold save. destruct (getSessionId sv); [|reflexivity].
    destruct (truthy (Some _)); [|reflexivity].
    destruct (truthy (curApp sv)); [|reflexivity].
    destruct (searchSessionInfoProvider sv) eqn:E; simpl; congruence.
  - by destruct settled as [[]|].
  - unfold save_created. destruct settled as [[]|]; [|reflexivity].
    by destruct (decide _).
  - by destruct cb.
Qed.

Lemma step_keeps_curApp (T : SessionTransitions) (c : Calls.Call)
    (sv : SessionService) :
  Calls.is_app_changed c = false → curApp (Calls.step T c sv) = curApp sv.
Proof.
  destruct c; try discriminate; intros _; cbn [Calls.step]; try reflexivity.
  - unfold destroy. by destruct (appChangeSubscription sv).
  - by destruct (cancel_spec T sv) as (_ & _ & _ & -> & _).
  - by destruct settled.
  - unfold save. destruct (getSessionId sv); [|reflexivity].
    destruct (truthy (Some _)); [|reflexivity].
    destruct (truthy (curApp sv)); [|reflexivity].
    destruct (searchSessionInfoProvider sv) eqn:E; simpl; congruence.
  - by destruct settled as [[]|].
  - unfold save_created. destruct settled as [[]|]; [|reflexivity].
    by destruct (decide _).
  - by destruct cb.
Qed.

(** For any container, the registered info provider is assigned only by
    [setSearchSessionInfoProvider], [clear()], [destroy()] and the navigation
    watcher, and the current application only by the navigation watcher.
    Every other call, resumption or callback leaves them as they were; so a
    provider registered for one session is still registered after
    [cancel()], and after [start()] or [restore()] has replaced that session
    by another. *)
Theorem provider_and_app_outlive_other_calls (T : SessionTransitions)
    (cs : list Calls.Call) (sv : SessionService) :
  (Forall (λ c, Calls.assigns_provider c = false) cs →
     searchSessionInfoProvider (Calls.run T cs sv) = searchSessionInfoProvider sv)
  ∧ (Forall (λ c, Calls.is_app_changed c = false) cs →
     curApp (Calls.run T cs sv) = curApp sv).
Proof.
  split; revert sv; induction cs as [|c cs IH]; intros sv Hall; try reflexivity;
    apply Forall_cons in Hall as [Hc Hcs]; cbn [Calls.run foldl];
    (etrans; [apply (IH _ Hcs)|]).
  - by apply step_keeps_provider.
  - by apply step_keeps_curApp.
Qed.

(** The session of the scenario is cancelled and another one is started and
    searched in: the provider [7] is still the registered one. *)
Lemma provider_and_app_outlive_other_calls_witness :
  searchSessionInfoProvider
    (Calls.run sessionPureTransitions
       [Calls.CallCancel; Calls.CallStart "S2"; Calls.CallTrackSearch 3%positive]
       (Scenario.searching false)) = Some 7%positive
  ∧ getSessionId
      (Calls.run sessionPureTransitions
         [Calls.CallCancel; Calls.CallStart "S2"; Calls.CallTrackSearch 3%positive]
         (Scenario.searching false)) = Some "S2".
Proof.
  split; [|reflexivity].
  apply (proj1 (provider_and_app_outlive_other_calls sessionPureTransitions
                  [Calls.CallCancel; Calls.CallStart "S2";
                   Calls.CallTrackSearch 3%positive]
                  (Scenario.searching false))).
  by repeat constructor.
Defined.

(** ** Navigation in a development build *)

Lemma onAppChange_dev (T : SessionTransitions) (appName : option string)
    (sv : SessionService) :
  dev sv = true → truthy (getSessionId sv) = true →
  ∃ message,
    onAppChange T appName sv =
    with_curApp appName (perform (SetTimeout (AddFatalError message) 100) sv).
Proof.
  unfold onAppChange, getSessionId. intros -> ->. eexists. reflexivity.
Qed.

(** In a development build, for any container, a session that is open when
    the application changes stays open however often the application
    changes: each change schedules one more fatal-error report, 100 ms later,
    and does nothing else to the session, its pending searches, its provider
    or the container's stream; the current application follows the last
    change. *)
Theorem dev_navigation_never_clears (T : SessionTransitions)
    (apps : list (option string)) (sv : SessionService) :
  dev sv = true → truthy (getSessionId sv) = true →
  let after := Calls.run T (map Calls.AppChanged apps) sv in
  state after = state sv
  ∧ published after = published sv
  ∧ searchSessionInfoProvider after = searchSessionInfoProvider sv
  ∧ length (effects_since sv after) = length apps
  ∧ Forall (λ e, Calls.is_fatal_error_timer e = true) (effects_since sv after)
  ∧ curApp after = default (curApp sv) (last apps).
Proof.
  intros Hdev Hopen after. subst after.
  assert (Hgen : ∃ new,
            effects (Calls.run T (map Calls.AppChanged apps) sv) = effects sv ++ new
            ∧ length new = length apps
            ∧ Forall (λ e, Calls.is_fatal_error_timer e = true) new
            ∧ state (Calls.run T (map Calls.AppChanged apps) sv) = state sv
            ∧ published (Calls.run T (map Calls.AppChanged apps) sv) = published sv
            ∧ searchSessionInfoProvider (Calls.run T (map Calls.AppChanged apps) sv)
              = searchSessionInfoProvider sv
            ∧ curApp (Calls.run T (map Calls.AppChanged apps) sv)
              = default (curApp sv) (last apps)).
  { revert sv Hdev Hopen. induction apps as [|a apps IH]; intros sv Hdev Hopen.
    - exists []. rewrite app_nil_r. by repeat split.
    - cbn [map Calls.run foldl Calls.step].
      destruct (onAppChange_dev T a sv Hdev Hopen) as (message & ->).
      destruct (IH (with_curApp a (perform (SetTimeout (AddFatalError message) 100) sv))
                  Hdev Hopen)
        as (new & E & Hlen & Hall & Hst & Hpub & Hprov & Happ).
      unfold Calls.run in *.
      exists (SetTimeout (AddFatalError message) 100 :: new).
      rewrite E, Hst, Hpub, Hprov, Happ. cbn. rewrite <- app_assoc, Hlen.
      repeat split; try done.
      + by constructor.
      + rewrite last_cons. by destruct (last apps). }
  destruct Hgen as (new & E & Hlen & Hall & Hst & Hpub & Hprov & Happ).
  rewrite (effects_since_app _ _ _ E). by repeat split.
Qed.

(** Three changes of application in the development build of the scenario:
    three reports are scheduled and the session "S1" is still open. *)
Lemma dev_navigation_never_clears_witness :
  let after :=
    Calls.run sessionPureTransitions
      (map Calls.AppChanged [Some "dashboards"; Some "visualize"; Some "discover"])
      (Scenario.searching true) in
  state after = state (Scenario.searching true)
  ∧ length (effects_since (Scenario.searching true) after) = 3.
Proof.
  intros after.
  pose proof (dev_navigation_never_clears sessionPureTransitions
                [Some "dashboards"; Some "visualize"; Some "discover"]
                (Scenario.searching true) eq_refl eq_refl)
    as (Hst & _ & _ & Hlen & _).
  split; [exact Hst | exact Hlen].
Defined.

(** ** The expand-panel action *)

Section ExpandPanelFacts.
Import ExpandPanel.

Variable DASHBOARD_CONTAINER_TYPE : string.
Variables getMinimizeTitle getMaximizeTitle : string.
Variable updateInput : option string → Parent → Parent.

Lemma isCompatible_inv (embeddable : IEmbeddable) :
  isCompatible DASHBOARD_CONTAINER_TYPE embeddable = true →
  ∃ p, parent embeddable = Some p
       ∧ isDashboard DASHBOARD_CONTAINER_TYPE p = true
       ∧ isExpanded DASHBOARD_CONTAINER_TYPE embeddable =
         Returned (bool_decide (Some (id embeddable) = expandedPanelId p)).
Proof.
  unfold isCompatible, isExpanded.
  destruct (parent embeddable) as [p|]; [|discriminate].
  intros Hd. exists p. by rewrite Hd.
Qed.

Lemma not_isCompatible_inv (embeddable : IEmbeddable) :
  isCompatible DASHBOARD_CONTAINER_TYPE embeddable = false →
  parent embeddable = None
  ∨ ∃ p, parent embeddable = Some p
         ∧ isDashboard DASHBOARD_CONTAINER_TYPE p = false.
Proof.
  unfold isCompatible. destruct (parent embeddable) as [p|]; [|by left].
  intros Hd. right. by exists p.
Qed.

End ExpandPanelFacts.

(** [isCompatible] tells exactly whether the other methods of the action
    throw.  On an embeddable whose parent is a dashboard, [getDisplayName],
    [getIconType] and [execute] all return: the name is the minimize title
    when the embeddable is the expanded panel and the maximize title
    otherwise, and the icon is "expand" in both cases.  On any other
    embeddable (no parent, or a parent of another type) each of them throws
    [IncompatibleActionError], and [execute] updates nothing. *)
Theorem expand_panel_compatible_iff_no_throw
    (DASHBOARD_CONTAINER_TYPE getMinimizeTitle getMaximizeTitle : string)
    (updateInput : option string → ExpandPanel.Parent → ExpandPanel.Parent)
    (embeddable : ExpandPanel.IEmbeddable) :
  (ExpandPanel.isCompatible DASHBOARD_CONTAINER_TYPE embeddable = true →
     ∃ p, ExpandPanel.parent embeddable = Some p
          ∧ ExpandPanel.parent_type p = DASHBOARD_CONTAINER_TYPE
          ∧ ExpandPanel.getDisplayName DASHBOARD_CONTAINER_TYPE
              getMinimizeTitle getMaximizeTitle embeddable =
            ExpandPanel.Returned
              (if decide (ExpandPanel.expandedPanelId p
                          = Some (ExpandPanel.id embeddable))
               then getMinimizeTitle else getMaximizeTitle)
          ∧ ExpandPanel.getIconType DASHBOARD_CONTAINER_TYPE embeddable =
            ExpandPanel.Returned "expand"
          ∧ ∃ p', ExpandPanel.execute DASHBOARD_CONTAINER_TYPE updateInput embeddable
                  = ExpandPanel.Returned p')
  ∧ (ExpandPanel.isCompatible DASHBOARD_CONTAINER_TYPE embeddable = false →
       ExpandPanel.isExpanded DASHBOARD_CONTAINER_TYPE embeddable =
         ExpandPanel.IncompatibleActionError
       ∧ ExpandPanel.getDisplayName DASHBOARD_CONTAINER_TYPE
           getMinimizeTitle getMaximizeTitle embeddable =
         ExpandPanel.IncompatibleActionError
       ∧ ExpandPanel.getIconType DASHBOARD_CONTAINER_TYPE embeddable =
         ExpandPanel.IncompatibleActionError
       ∧ ExpandPanel.execute DASHBOARD_CONTAINER_TYPE updateInput embeddable =
         ExpandPanel.IncompatibleActionError).
Proof.
  split.
  - intros Hc.
    destruct (isCompatible_inv _ _ Hc) as (p & Hp & Hd & Hexp).
    exists p. split; [exact Hp|].
    split; [by apply bool_decide_eq_true in Hd|].
    unfold ExpandPanel.getDisplayName, ExpandPanel.getIconType, ExpandPanel.execute.
    rewrite Hp, Hd, Hexp. cbn [negb].
    split; [|split; [|eauto]].
    + destruct (decide (ExpandPanel.expandedPanelId p = Some (ExpandPanel.id embeddable)))
        as [E|NE].
      * by rewrite bool_decide_true.
      * by rewrite bool_decide_false.
    + by destruct (bool_decide _).
  - intros Hc.
    unfold ExpandPanel.isExpanded, ExpandPanel.getDisplayName,
      ExpandPanel.getIconType, ExpandPanel.execute.
    destruct (not_isCompatible_inv _ _ Hc) as [->|(p & -> & ->)]; done.
Qed.

(** An embeddable with no parent: not compatible, and [execute] throws. *)
Lemma expand_panel_compatible_iff_no_throw_witness :
  ExpandPanel.execute "dashboard" ExpandPanel.mergeInput
    {| ExpandPanel.id := "panel-1"; ExpandPanel.type := "visualization";
       ExpandPanel.parent := None |} = ExpandPanel.IncompatibleActionError.
Proof.
  apply (expand_panel_compatible_iff_no_throw "dashboard" "Minimize" "Maximize"
           ExpandPanel.mergeInput
           {| ExpandPanel.id := "panel-1"; ExpandPanel.type := "visualization";
              ExpandPanel.parent := None |}).
  reflexivity.
Defined.

(** [execute] toggles.  Let [updateInput] store the value it is given and
    keep the parent's type.  On a compatible embeddable, [execute] leaves the
    embeddable expanded if it was not and not expanded if it was, replacing
    whatever other panel was expanded; run twice, it gives back the input it
    started from exactly when no other panel was expanded at the start, and
    otherwise leaves no panel expanded. *)
Theorem expand_panel_execute_toggles
    (DASHBOARD_CONTAINER_TYPE : string)
    (updateInput : option string → ExpandPanel.Parent → ExpandPanel.Parent)
    (embeddable : ExpandPanel.IEmbeddable) (p : ExpandPanel.Parent) :
  (∀ v q, ExpandPanel.expandedPanelId (updateInput v q) = v) →
  (∀ v q, ExpandPanel.parent_type (updateInput v q) = ExpandPanel.parent_type q) →
  ExpandPanel.parent embeddable = Some p →
  ExpandPanel.parent_type p = DASHBOARD_CONTAINER_TYPE →
  let mine := Some (ExpandPanel.id embeddable) in
  ∃ p1 p2,
    ExpandPanel.execute DASHBOARD_CONTAINER_TYPE updateInput embeddable
      = ExpandPanel.Returned p1
    ∧ ExpandPanel.expandedPanelId p1 =
        (if decide (ExpandPanel.expandedPanelId p = mine) then None else mine)
    ∧ ExpandPanel.isExpanded DASHBOARD_CONTAINER_TYPE
        (ExpandPanel.reparent p1 embeddable) =
      ExpandPanel.Returned
        (negb (bool_decide (ExpandPanel.expandedPanelId p = mine)))
    ∧ ExpandPanel.execute_twice DASHBOARD_CONTAINER_TYPE updateInput embeddable
      = ExpandPanel.Returned p2
    ∧ ExpandPanel.expandedPanelId p2 =
        (if decide (ExpandPanel.expandedPanelId p = mine) then mine else None)
    ∧ (ExpandPanel.expandedPanelId p2 = ExpandPanel.expandedPanelId p
       ↔ ExpandPanel.expandedPanelId p = None
         ∨ ExpandPanel.expandedPanelId p = mine).
Proof.
  intros Hget Htype Hp Hd mine. subst mine.
  set (newValue := if bool_decide (Some (ExpandPanel.id embeddable)
                                   = ExpandPanel.expandedPanelId p)
                   then None else Some (ExpandPanel.id embeddable)).
  assert (Hdash : ∀ v q, ExpandPanel.parent_type q = DASHBOARD_CONTAINER_TYPE →
            ExpandPanel.isDashboard DASHBOARD_CONTAINER_TYPE (updateInput v q) = true).
  { intros v q Hq. unfold ExpandPanel.isDashboard. rewrite Htype.
    by apply bool_decide_eq_true. }
  assert (Hdp : ExpandPanel.isDashboard DASHBOARD_CONTAINER_TYPE p = true).
  { by apply bool_decide_eq_true. }
  assert (Hex : ∀ q, ExpandPanel.parent_type q = DASHBOARD_CONTAINER_TYPE →
            ExpandPanel.isDashboard DASHBOARD_CONTAINER_TYPE q = true →
            ExpandPanel.execute DASHBOARD_CONTAINER_TYPE updateInput
              (ExpandPanel.reparent q embeddable) =
            ExpandPanel.Returned
              (updateInput
                 (if bool_decide (Some (ExpandPanel.id embeddable)
                                  = ExpandPanel.expandedPanelId q)
                  then None else Some (ExpandPanel.id embeddable)) q)).
  { intros q Hq Hdq. unfold ExpandPanel.execute, ExpandPanel.isExpanded.
    cbn [ExpandPanel.reparent ExpandPanel.parent ExpandPanel.id].
    by rewrite Hdq. }
  assert (Hex1 : ExpandPanel.execute DASHBOARD_CONTAINER_TYPE updateInput embeddable
                 = ExpandPanel.Returned (updateInput newValue p)).
  { unfold ExpandPanel.execute, ExpandPanel.isExpanded. by rewrite Hp, Hdp. }
  exists (updateInput newValue p).
  exists (updateInput
            (if bool_decide (Some (ExpandPanel.id embeddable)
                             = ExpandPanel.expandedPanelId (updateInput newValue p))
             then None else Some (ExpandPanel.id embeddable))
            (updateInput newValue p)).
  split; [exact Hex1|].
  unfold ExpandPanel.execute_twice. rewrite Hex1.
  rewrite Hex by (rewrite ?Htype; auto).
  unfold ExpandPanel.isExpanded.
  cbn [ExpandPanel.reparent ExpandPanel.parent ExpandPanel.id].
  rewrite (Hdash _ _ Hd). cbn [negb]. rewrite !Hget. subst newValue.
  destruct (decide (ExpandPanel.expandedPanelId p = Some (ExpandPanel.id embeddable)))
    as [E|NE].
  - rewrite (bool_decide_true (Some (ExpandPanel.id embeddable)
                               = ExpandPanel.expandedPanelId p)) by done.
    rewrite (bool_decide_true (ExpandPanel.expandedPanelId p
                               = Some (ExpandPanel.id embeddable))) by done.
    rewrite (bool_decide_false (Some (ExpandPanel.id embeddable) = None)) by done.
    repeat split; try done. by right.
  - rewrite (bool_decide_false (Some (ExpandPanel.id embeddable)
                                = ExpandPanel.expandedPanelId p)) by done.
    rewrite (bool_decide_false (ExpandPanel.expandedPanelId p
                                = Some (ExpandPanel.id embeddable))) by done.
    rewrite (bool_decide_true (Some (ExpandPanel.id embeddable)
                               = Some (ExpandPanel.id embeddable))) by done.
    repeat split; try done.
    + intros E. by left.
    + intros [E|E]; [by rewrite E | done].
Qed.

(** A dashboard with the panel "panel-2" expanded: [execute] on "panel-1"
    expands "panel-1" instead. *)
Lemma expand_panel_execute_toggles_witness :
  let dashboard :=
    {| ExpandPanel.parent_type := "dashboard";
       ExpandPanel.expandedPanelId := Some "panel-2" |} in
  let panel :=
    {| ExpandPanel.id := "panel-1"; ExpandPanel.type := "visualization";
       ExpandPanel.parent := Some dashboard |} in
  ∃ p1, ExpandPanel.execute "dashboard" ExpandPanel.mergeInput panel
        = ExpandPanel.Returned p1
        ∧ ExpandPanel.expandedPanelId p1 = Some "panel-1".
Proof.
  intros dashboard panel.
  destruct (expand_panel_execute_toggles "dashboard" ExpandPanel.mergeInput
              panel dashboard (λ _ _, eq_refl) (λ _ _, eq_refl) eq_refl eq_refl)
    as (p1 & _ & Hex & Hid & _).
  exists p1. split; [exact Hex | exact Hid].
Defined.
